(** * smartie.py: driver for SureElectronics "Smartie" character LCDs

    A shallow embedding of [src/smartie.py] and the verification of the
    properties its specification states about command framing, text layout
    and the timed multi-line operations.

    The serial port is a byte sink: what the driver does is the sequence of
    [lcd.write] and [time.sleep] calls it makes.  Every method of the class
    is therefore a computation over a trace of events, which may also raise
    a Python exception (the events before the exception stay in the trace). *)

From Stdlib Require Import String Ascii List ZArith NArith QArith Lia Bool.
From Stdlib Require Import Init.Byte.
Import ListNotations.

Local Open Scope Z_scope.

(** ** Python values and built-ins *)

(** A [str] is a sequence of code points, a [bytes] a sequence of bytes. *)
Definition pystr := list N.
Definition bytes := list byte.

(** The exceptions the built-ins used by the driver can raise. *)
Inductive exn : Type :=
| ValueError
| OverflowError
| UnicodeEncodeError.

(** Result of a call: a value, an exception, or a loop that was not given
    enough fuel (never the case for the driver, see the theorems). *)
Inductive outcome (A : Type) : Type :=
| Returned (a : A)
| Raised (e : exn)
| OutOfFuel.
Arguments Returned {A} a.
Arguments Raised {A} e.
Arguments OutOfFuel {A}.

(** The values a caller may pass where the driver tests [x is True]. *)
Inductive pyval : Type :=
| PyNone
| PyBool (b : bool)
| PyInt (i : Z)
| PyStr (s : list N).

(** [x is True]: only the boolean [True] itself. *)
Definition is_True (x : pyval) : bool :=
  match x with
  | PyBool true => true
  | _ => false
  end.

(** A string literal of the source, as code points. *)
Definition str_of (s : string) : pystr :=
  map N_of_ascii (list_ascii_of_string s).

Definition byte_of_N (n : N) : byte :=
  match Byte.of_N n with
  | Some b => b
  | None => x00
  end.

(** [len(x)] *)
Definition len {A} (l : list A) : Z := Z.of_nat (length l).

(** [x[lo:hi]] with Python's clamping of the two bounds. *)
Definition clamp_index (n i : Z) : Z :=
  if i <? 0 then Z.max 0 (i + n) else Z.min i n.

Definition slice {A} (l : list A) (lo hi : Z) : list A :=
  let lo' := clamp_index (len l) lo in
  let hi' := clamp_index (len l) hi in
  firstn (Z.to_nat (hi' - lo')) (skipn (Z.to_nat lo') l).

(** [range(start, stop, step)] for a positive step. *)
Definition range3 (start stop step : Z) : list Z :=
  let n := if start <? stop then (stop - start - 1) / step + 1 else 0 in
  map (fun k => start + step * Z.of_nat k) (seq 0 (Z.to_nat n)).

(** [chr(i)]: the argument is first taken as a C int, [OverflowError]
    when it does not fit ([-2^31 .. 2^31 - 1]); then a one-character
    string, [ValueError] outside [range(0x110000)]. *)
Definition chr (i : Z) : outcome pystr :=
  if (i <? -2147483648) || (2147483647 <? i) then Raised OverflowError
  else if (0 <=? i) && (i <? 0x110000) then Returned [Z.to_N i]
  else Raised ValueError.

(** UTF-8 encoding of one code point; lone surrogates are not encodable. *)
Definition utf8_char (c : N) : outcome bytes :=
  (if c <? 0x80 then
     Returned [byte_of_N c]
   else if c <? 0x800 then
     Returned [byte_of_N (N.lor 0xC0 (N.shiftr c 6));
               byte_of_N (N.lor 0x80 (N.land c 0x3F))]
   else if (0xD800 <=? c) && (c <=? 0xDFFF) then
     Raised UnicodeEncodeError
   else if c <? 0x10000 then
     Returned [byte_of_N (N.lor 0xE0 (N.shiftr c 12));
               byte_of_N (N.lor 0x80 (N.land (N.shiftr c 6) 0x3F));
               byte_of_N (N.lor 0x80 (N.land c 0x3F))]
   else
     Returned [byte_of_N (N.lor 0xF0 (N.shiftr c 18));
               byte_of_N (N.lor 0x80 (N.land (N.shiftr c 12) 0x3F));
               byte_of_N (N.lor 0x80 (N.land (N.shiftr c 6) 0x3F));
               byte_of_N (N.lor 0x80 (N.land c 0x3F))])%N.

(** [s.encode()] (UTF-8, strict). *)
Fixpoint str_encode (s : pystr) : outcome bytes :=
  match s with
  | [] => Returned []
  | c :: s' =>
      match utf8_char c with
      | Returned b =>
          match str_encode s' with
          | Returned bs => Returned (b ++ bs)
          | other => other
          end
      | other => other
      end
  end.

(** [s.encode('ascii', 'ignore')]: characters outside ASCII are dropped. *)
Definition is_ascii (c : N) : bool := (c <? 128)%N.

Definition encode_ascii_ignore (s : pystr) : bytes :=
  map byte_of_N (filter is_ascii s).

(** [b.ljust(width)]: padded on the right with spaces, unchanged when
    already that long. *)
Definition ljust (b : bytes) (width : nat) : bytes :=
  b ++ repeat x20 (width - length b).

(** [a == b] on strings. *)
Definition str_eqb (a b : pystr) : bool :=
  if list_eq_dec N.eq_dec a b then true else false.

(** [s.ljust(width, fill)], [s.rjust(width, fill)] and
    [s.center(width, fill)]: the string itself when it is already that
    long; [center] puts [marg/2 + (marg & width & 1)] fill characters on
    the left. *)
Definition str_ljust (s : pystr) (width : Z) (fill : N) : pystr :=
  if width <=? len s then s
  else s ++ repeat fill (Z.to_nat (width - len s)).

Definition str_rjust (s : pystr) (width : Z) (fill : N) : pystr :=
  if width <=? len s then s
  else repeat fill (Z.to_nat (width - len s)) ++ s.

Definition str_center (s : pystr) (width : Z) (fill : N) : pystr :=
  if width <=? len s then s
  else
    let marg := width - len s in
    let left := marg / 2 + Z.land (Z.land marg width) 1 in
    repeat fill (Z.to_nat left) ++ s ++ repeat fill (Z.to_nat (marg - left)).

(** ** The transport and the monad of the driver *)

Inductive event : Type :=
| Write (data : bytes)
| Sleep (secs : Q).

Definition trace := list event.

Definition io (A : Type) : Type := trace -> outcome A * trace.

Definition ret {A} (a : A) : io A := fun t => (Returned a, t).

Definition bind {A B} (m : io A) (k : A -> io B) : io B :=
  fun t =>
    match m t with
    | (Returned a, t') => k a t'
    | (Raised e, t') => (Raised e, t')
    | (OutOfFuel, t') => (OutOfFuel, t')
    end.

Notation "x <- m ;; k" := (bind m (fun x => k))
  (at level 61, m at next level, right associativity).
Notation "m ;; k" := (bind m (fun _ => k))
  (at level 61, right associativity).

Definition lift {A} (o : outcome A) : io A := fun t => (o, t).

Definition emit (e : event) : io unit := fun t => (Returned tt, t ++ [e]).

(** [self.lcd.write(data)] *)
Definition lcd_write (data : bytes) : io unit := emit (Write data).

(** [time.sleep(secs)]: [ValueError] on a negative length. *)
Definition sleep (secs : Q) : io unit :=
  if Qle_bool 0 secs then emit (Sleep secs) else lift (Raised ValueError).

(** [for x in l: body(x)] *)
Fixpoint for_each {A} (l : list A) (body : A -> io unit) : io unit :=
  match l with
  | [] => ret tt
  | x :: l' => body x ;; for_each l' body
  end.

(** [for x in l: v = body(v, x)] for a loop that updates one local [v]. *)
Fixpoint for_each_with {A V} (l : list A) (v : V) (body : V -> A -> io V)
  : io V :=
  match l with
  | [] => ret v
  | x :: l' => v' <- body v x ;; for_each_with l' v' body
  end.

(** [while i < bound: body(i); i += 1] *)
Fixpoint while_lt (fuel : nat) (i bound : Z) (body : Z -> io unit)
  : io unit :=
  if i <? bound then
    match fuel with
    | O => lift OutOfFuel
    | S fuel' => body i ;; while_lt fuel' (i + 1) bound body
    end
  else ret tt.

(** The frames written to the port, in order. *)
Fixpoint writes (t : trace) : list bytes :=
  match t with
  | [] => []
  | Write d :: t' => d :: writes t'
  | Sleep _ :: t' => writes t'
  end.

(** ** Module constants *)

Definition DELAY : Q := 4 # 100.
Definition SCREEN_WIDTH : Z := 20.
Definition SCREEN_LINES : Z := 4.

(** ** class Smartie *)

Section Smartie.

(** [unicodedata.normalize('NFKD', _)]: the character database is not
    part of the driver. *)
Variable nfkd : pystr -> pystr.

(** [__init__], after the port is opened. *)
Definition init : io unit := lcd_write [xfe; x56; x00].

Definition command (cmd : list bytes) : io unit :=
  let cmd_str := concat ([xfe] :: cmd) in
  lcd_write cmd_str ;;
  sleep DELAY.

Definition backlight_on : io unit := command [[x42]; [x00]].

Definition backlight_off : io unit := command [[x46]].

Definition backlight_toggle_on (switch : pyval) : io unit :=
  if is_True switch then backlight_on else backlight_off.

Definition set_contrast (amount : Z) : io unit :=
  c <- lift (chr amount) ;;
  b <- lift (str_encode c) ;;
  command [[x50]; b].

Definition show_temperature (line : Z) : io unit :=
  c <- lift (chr line) ;;
  b <- lift (str_encode c) ;;
  command [[x57]; b].

(** Lines 83-84: the line actually addressed. *)
Definition coerce_line (line : option Z) : Z :=
  match line with
  | None => 1
  | Some l => if (l <? 1) || (l >? 4) then 1 else l
  end.

(** Lines 86-88: the field sent for a text. *)
Definition toField (data : pystr) : bytes :=
  let data := nfkd data in
  let data := encode_ascii_ignore data in
  slice (ljust data 20) 0 20.

Definition write_line (data : pystr) (line : option Z) : io unit :=
  let line := coerce_line line in
  let data := toField data in
  c <- lift (chr line) ;;
  b <- lift (str_encode c) ;;
  command [[x47]; [x01]; b; data].

Definition clear_screen : io unit :=
  for_each (range3 1 (SCREEN_LINES + 1) 1)
           (fun line => write_line (str_of " ") (Some line)).

Definition write_line_flash (text : pystr) (line : option Z) (count : Z)
           (tick : Q) : io unit :=
  while_lt (Z.to_nat count) 0 count
           (fun _ =>
              write_line text line ;;
              sleep tick ;;
              write_line (str_of "") line ;;
              sleep tick) ;;
  write_line text line.

Definition write_data_wrapped (text : pystr) : io unit :=
  let data := slice text 0 79 in
  for_each_with (range3 0 (len data) 20) 1
                (fun row i =>
                   write_line (slice data i (i + 20)) (Some row) ;;
                   ret (row + 1)) ;;
  ret tt.

Definition write_lines (textlines : list pystr) : io unit :=
  let texts := slice textlines 0 SCREEN_LINES in
  for_each_with texts 1
                (fun line linetext =>
                   write_line linetext (Some line) ;;
                   ret (line + 1)) ;;
  ret tt.

Definition write_lines_scroll (textlines : list pystr) (speed : Q)
  : io unit :=
  let numberoflines := len textlines in
  if numberoflines <? SCREEN_LINES + 1 then
    write_lines textlines
  else
    let bound := numberoflines - (SCREEN_LINES - 1) in
    while_lt (Z.to_nat bound) 0 bound
             (fun startitem =>
                let displaytexts :=
                  slice textlines startitem (startitem + SCREEN_LINES) in
                write_lines displaytexts ;;
                sleep speed).

End Smartie.

(** ** The rest of the class and the main program *)

(** The parsed command line ([ARGS]); [argparse] itself is not modelled. *)
Record Args : Type := {
  args_backlight : option pystr;
  args_contrast : option Z;
  args_line : option Z;
  args_demo : bool;
  args_clear : bool;
  args_message : option pystr
}.

Section Program.

Variable nfkd : pystr -> pystr.

(** [str.lower]: the case mapping of the character database. *)
Variable lower : pystr -> pystr.

Definition write_line_aligned (text : pystr) (line : option Z)
           (align : pystr) : io unit :=
  let align := lower align in
  let text :=
    if str_eqb align (str_of "c") then str_center text SCREEN_WIDTH 32%N
    else if str_eqb align (str_of "r") then str_rjust text SCREEN_WIDTH 32%N
    else str_ljust text SCREEN_WIDTH 32%N in
  write_line nfkd text line.

Definition demo : io unit :=
  clear_screen nfkd ;;
  backlight_toggle_on (PyBool true) ;;
  write_line nfkd (str_of "Left") (Some 1) ;;
  write_line_aligned (str_of "Right") (Some 2) (str_of "r") ;;
  write_line_aligned (str_of "Center") (Some 3) (str_of "c") ;;
  write_line_flash nfkd (str_of "Flash") (Some 4) 3 (6 # 10) ;;
  sleep 2 ;;
  write_data_wrapped nfkd
    (str_of "this is a long piece of text that will be wrapped as required!") ;;
  sleep 2 ;;
  write_lines nfkd (map str_of ["1 As a list"; "2"; "3"; "4"]%string) ;;
  sleep 3 ;;
  clear_screen nfkd ;;
  write_lines_scroll nfkd
    (map str_of
         ["1 As a scrolling list"; "2"; "3"; "4"; "5"; "6"; "7"; "8"]%string)
    (5 # 10) ;;
  sleep 2 ;;
  clear_screen nfkd ;;
  show_temperature 1 ;;
  sleep 2 ;;
  clear_screen nfkd ;;
  sleep 2 ;;
  backlight_toggle_on (PyBool false).

(** The main program, from the parsed arguments on; [Smartie()] is the
    init frame (the port is taken to open).  [if ARGS.contrast:] is false
    for a missing contrast and for 0, [if ARGS.message:] for a missing
    message and for the empty one; [ARGS.backlight] is compared with 'on'
    and 'off' as it is, [ARGS.line] with [None]. *)
Definition main (ARGS : Args) : io unit :=
  init ;;
  (if args_clear ARGS then clear_screen nfkd else ret tt) ;;
  (match args_backlight ARGS with
   | Some b =>
       if str_eqb b (str_of "on") then backlight_on
       else if str_eqb b (str_of "off") then backlight_off
       else ret tt
   | None => ret tt
   end) ;;
  (match args_contrast ARGS with
   | Some c => if c =? 0 then ret tt else set_contrast c
   | None => ret tt
   end) ;;
  (if args_demo ARGS then demo else ret tt) ;;
  match args_message ARGS with
  | Some m =>
      match m with
      | [] => ret tt
      | _ =>
          match args_line ARGS with
          | None => write_data_wrapped nfkd m
          | Some l => write_line nfkd m (Some l)
          end
      end
  | None => ret tt
  end.

End Program.

(** A fragment of the case mapping: the ASCII capitals. *)
Definition lower_sample (s : pystr) : pystr :=
  map (fun c => if ((65 <=? c) && (c <=? 90))%N then (c + 32)%N else c) s.

(** A fragment of the NFKD table, enough to run the driver on Latin text:
    U+00E9 decomposes to e + U+0301, U+FB01 (the fi ligature) to f + i,
    every other character is left as it is. *)
Definition nfkd_sample (s : pystr) : pystr :=
  flat_map (fun c => if (c =? 0xE9)%N then [0x65; 0x301]%N
                     else if (c =? 0xFB01)%N then [0x66; 0x69]%N
                     else [c]) s.

(** The list of the scrolling scenario of the specification. *)
Definition five_lines : list pystr :=
  map str_of ["a"; "b"; "c"; "d"; "e"]%string.

(** ** What a call emits *)

(** [emits m a evs]: from any trace, [m] returns [a] without raising, having
    appended exactly the events [evs]. *)
Definition emits {A} (m : io A) (a : A) (evs : trace) : Prop :=
  forall t, m t = (Returned a, t ++ evs).

(** The frame of the protocol table for "write line". *)
Definition line_byte (line : Z) : byte := byte_of_N (Z.to_N line).

Definition line_frame (line : Z) (field : bytes) : bytes :=
  [xfe; x47; x01; line_byte line] ++ field.

(** The events of one [write_line] call that reaches line [line]. *)
Definition line_events (nfkd : pystr -> pystr) (text : pystr) (line : Z)
  : trace :=
  [Write (line_frame line (toField nfkd text)); Sleep DELAY].

(** The events of [write_line] on successive rows, counting from [row]. *)
Fixpoint rows_events (nfkd : pystr -> pystr) (row : Z) (texts : list pystr)
  : trace :=
  match texts with
  | [] => []
  | x :: rest => line_events nfkd x row ++ rows_events nfkd (row + 1) rest
  end.

(** The events of [n] rounds of a counted loop whose round [i] emits
    [E i]. *)
Fixpoint iter_events (n : nat) (i : Z) (E : Z -> trace) : trace :=
  match n with
  | O => []
  | S n' => E i ++ iter_events n' (i + 1) E
  end.

(** The events of [write_lines]: the first four texts, on rows 1, 2, ... *)
Definition lines_events (nfkd : pystr -> pystr) (textlines : list pystr)
  : trace :=
  rows_events nfkd 1 (firstn 4 textlines).

(** The consecutive 20-character slices of a text, in input order: the
    chunking that the specification of [write_data_wrapped] describes. *)
Definition chunks20 (data : pystr) : list pystr :=
  map (fun k => firstn 20 (skipn (20 * k) data))
      (seq 0 ((length data + 19) / 20)).

(** The windows [lines[offset : offset+4]] for the starting offsets 0, 1,
    ..., [len(lines) - (SCREEN_LINES-1) - 1], as the specification of
    [write_lines_scroll] lists them. *)
Definition scroll_windows (lines : list pystr) : list (list pystr) :=
  map (fun off => slice lines (Z.of_nat off) (Z.of_nat off + SCREEN_LINES))
      (seq 0 (Z.to_nat (len lines - (SCREEN_LINES - 1)))).

(** The events of showing the windows [ws] one after the other: each one
    through [write_lines], followed by a sleep of [speed]. *)
Definition windows_events (nfkd : pystr -> pystr) (speed : Q)
           (ws : list (list pystr)) : trace :=
  concat (map (fun w => lines_events nfkd w ++ [Sleep speed]) ws).

(** [write_lines_scroll] shows [count] windows of four lines. *)
Definition displays_windows (nfkd : pystr -> pystr) (lines : list pystr)
           (speed : Q) (count : Z) : Prop :=
  exists ws,
    len ws = count
    /\ Forall (fun w => length w = 4%nat) ws
    /\ forall t, write_lines_scroll nfkd lines speed t =
                 (Returned tt, t ++ windows_events nfkd speed ws).

(** The time spent in [time.sleep] along a trace. *)
Fixpoint total_sleep (t : trace) : Q :=
  match t with
  | [] => 0
  | Sleep d :: t' => d + total_sleep t'
  | Write _ :: t' => total_sleep t'
  end.

(** Output in the form the device expects: every frame begins with the lead
    byte FE and is followed at once by the DELAY pause. *)
Inductive framed : trace -> Prop :=
| framed_nil : framed []
| framed_sleep (d : Q) (t : trace) : framed t -> framed (Sleep d :: t)
| framed_write (rest : bytes) (t : trace) :
    framed t -> framed (Write (xfe :: rest) :: Sleep DELAY :: t).

(** [m] only appends to the trace, and what it appends is [framed],
    whether it returns or raises. *)
Definition appends_framed {A} (m : io A) : Prop :=
  forall t, exists evs, snd (m t) = t ++ evs /\ framed evs.

(** The two-byte form of UTF-8, checked on one code point: lead byte
    [0xC0 + c / 64], continuation byte [0x80 + c mod 64]. *)
Definition two_byte_ok (c : N) : bool :=
  match utf8_char c with
  | Returned [b1; b2] =>
      ((Byte.to_N b1 =? 192 + c / 64) && (Byte.to_N b2 =? 128 + c mod 64))%N
  | _ => false
  end.

(** A trace that does not begin with a sleep: nothing, or a frame first. *)
Definition starts_with_frame (evs : trace) : Prop :=
  evs = [] \/ exists f rest, evs = Write f :: rest.

(** [m] appends framed output that does not begin with a sleep. *)
Definition appends_led {A} (m : io A) : Prop :=
  forall t, exists evs,
    snd (m t) = t ++ evs /\ framed evs /\ starts_with_frame evs.

(** [m] returns normally after writing exactly [n] frames. *)
Definition returns_after {A} (m : io A) (n : nat) : Prop :=
  forall t, exists a evs,
    m t = (Returned a, t ++ evs) /\ length (writes evs) = n.

(** ** Lemmas on the built-ins *)

Lemma len_nonneg {A} (l : list A) : 0 <= len l.
Proof. unfold len. lia. Qed.

Lemma slice_from {A} (l : list A) (lo hi : Z) :
  0 <= lo -> lo <= hi ->
  slice l lo hi = firstn (Z.to_nat (hi - lo)) (skipn (Z.to_nat lo) l).
Proof.
  intros Hlo Hhi. unfold slice, clamp_index, len.
  assert (E1 : (lo <? 0) = false) by (apply Z.ltb_ge; lia).
  assert (E2 : (hi <? 0) = false) by (apply Z.ltb_ge; lia).
  rewrite E1, E2.
  destruct (Z_le_gt_dec hi (Z.of_nat (length l))) as [H | H].
  - rewrite !Z.min_l by lia. reflexivity.
  - rewrite (Z.min_r hi) by lia.
    destruct (Z_le_gt_dec lo (Z.of_nat (length l))) as [H' | H'].
    + rewrite Z.min_l by lia.
      rewrite !firstn_all2; trivial; rewrite length_skipn; lia.
    + rewrite Z.min_r by lia.
      rewrite Z.sub_diag. simpl.
      rewrite skipn_all2 by lia.
      now rewrite firstn_nil.
Qed.

Lemma slice_prefix {A} (l : list A) (hi : Z) :
  0 <= hi -> slice l 0 hi = firstn (Z.to_nat hi) l.
Proof.
  intros H. rewrite slice_from by lia.
  now rewrite Z.sub_0_r.
Qed.

Lemma firstn_plus {A} (a b : nat) (l : list A) :
  firstn (a + b) l = firstn a l ++ firstn b (skipn a l).
Proof.
  revert l. induction a as [| a IH]; intros l; simpl; trivial.
  destruct l as [| x l]; simpl.
  - now rewrite firstn_nil.
  - now rewrite IH.
Qed.

Lemma In_firstn {A} (x : A) (n : nat) (l : list A) :
  In x (firstn n l) -> In x l.
Proof.
  intros H. rewrite <- (firstn_skipn n l). apply in_or_app. now left.
Qed.

Lemma range3_unfold (stop step : Z) :
  0 < step -> 0 <= stop ->
  range3 0 stop step =
  map (fun k => step * Z.of_nat k)
      (seq 0 (Z.to_nat ((stop + step - 1) / step))).
Proof.
  intros Hs Hn. unfold range3.
  destruct (Z.ltb_spec 0 stop) as [H | H].
  - replace ((stop - 0 - 1) / step + 1) with ((stop + step - 1) / step).
    + reflexivity.
    + replace (stop + step - 1) with (stop - 0 - 1 + 1 * step) by lia.
      now rewrite Z.div_add by lia.
  - assert (stop = 0) by lia. subst stop.
    rewrite Z.div_small by lia. reflexivity.
Qed.

Lemma line_byte_encode (l : Z) :
  1 <= l <= 4 ->
  chr l = Returned [Z.to_N l] /\ str_encode [Z.to_N l] = Returned [line_byte l].
Proof.
  intros H.
  assert (C : l = 1 \/ l = 2 \/ l = 3 \/ l = 4) by lia.
  destruct C as [-> | [-> | [-> | ->]]]; split; reflexivity.
Qed.

Lemma line_byte_range (l : Z) :
  1 <= l <= 4 -> (1 <= Byte.to_N (line_byte l) <= 4)%N.
Proof.
  intros H.
  assert (C : l = 1 \/ l = 2 \/ l = 3 \/ l = 4) by lia.
  destruct C as [-> | [-> | [-> | ->]]]; vm_compute; split; discriminate.
Qed.

Lemma coerce_line_range (line : option Z) : 1 <= coerce_line line <= 4.
Proof.
  destruct line as [l |]; simpl; [| lia].
  destruct (Z.ltb_spec l 1); simpl; [lia |].
  destruct (Z.gtb_spec l 4); lia.
Qed.

Lemma coerce_line_valid (l : Z) : 1 <= l <= 4 -> coerce_line (Some l) = l.
Proof.
  intros H. simpl.
  destruct (Z.ltb_spec l 1); simpl; [lia |].
  destruct (Z.gtb_spec l 4); [lia | reflexivity].
Qed.

(** ** Lemmas on the monad *)

Lemma emits_ret {A} (a : A) : emits (ret a) a [].
Proof. intros t. unfold ret. now rewrite app_nil_r. Qed.

Lemma emits_bind {A B} (m : io A) (k : A -> io B) a b e1 e2 :
  emits m a e1 -> emits (k a) b e2 -> emits (bind m k) b (e1 ++ e2).
Proof.
  intros H1 H2 t. unfold bind. rewrite H1, H2. now rewrite app_assoc.
Qed.

Lemma emits_lift {A} (a : A) : emits (lift (Returned a)) a [].
Proof. intros t. unfold lift. now rewrite app_nil_r. Qed.

Lemma emits_sleep (d : Q) : Qle_bool 0 d = true -> emits (sleep d) tt [Sleep d].
Proof. intros H t. unfold sleep. now rewrite H. Qed.

Lemma emits_command (cmd : list bytes) :
  emits (command cmd) tt [Write (xfe :: concat cmd); Sleep DELAY].
Proof.
  intros t. unfold command, bind, lcd_write, sleep, emit.
  change (Qle_bool 0 DELAY) with true. cbv iota beta.
  now rewrite <- app_assoc.
Qed.

Lemma for_each_with_map {A B V} (f : A -> B) (body : V -> B -> io V) l :
  forall v t,
    for_each_with (map f l) v body t =
    for_each_with l v (fun v x => body v (f x)) t.
Proof.
  induction l as [| x l IH]; intros v t; simpl; trivial.
  unfold bind. destruct (body v (f x) t) as [[a | e |] t']; trivial.
Qed.

Lemma emits_while (body : Z -> io unit) (E : Z -> trace) (bound : Z) :
  forall fuel i,
    (Z.to_nat (bound - i) <= fuel)%nat ->
    (forall j, i <= j < bound -> emits (body j) tt (E j)) ->
    emits (while_lt fuel i bound body) tt
          (iter_events (Z.to_nat (bound - i)) i E).
Proof.
  induction fuel as [| fuel IH]; intros i Hf Hb; simpl.
  - destruct (Z.ltb_spec i bound); [lia |].
    replace (Z.to_nat (bound - i)) with O by lia. apply emits_ret.
  - destruct (Z.ltb_spec i bound) as [H | H].
    + replace (Z.to_nat (bound - i)) with (S (Z.to_nat (bound - (i + 1))))
        by lia.
      simpl. apply emits_bind with (a := tt).
      * apply Hb. lia.
      * apply IH; [lia |]. intros j Hj. apply Hb. lia.
    + replace (Z.to_nat (bound - i)) with O by lia. apply emits_ret.
Qed.

Lemma iter_events_seq (E : Z -> trace) (n : nat) :
  forall i,
    iter_events n i E = concat (map (fun k => E (i + Z.of_nat k)) (seq 0 n)).
Proof.
  induction n as [| n IH]; intros i; simpl; trivial.
  rewrite Z.add_0_r. f_equal.
  rewrite IH, <- seq_shift, map_map. f_equal.
  apply map_ext. intros k. f_equal. lia.
Qed.

Lemma iter_events_const (X : list event) (n : nat) :
  forall i, iter_events n i (fun _ => X) = concat (repeat X n).
Proof.
  induction n as [| n IH]; intros i; simpl; trivial. now rewrite IH.
Qed.

Lemma writes_app (t1 t2 : trace) : writes (t1 ++ t2) = writes t1 ++ writes t2.
Proof.
  induction t1 as [| [d | s] t1 IH]; simpl; trivial. now rewrite IH.
Qed.

Lemma byte_of_N_small (c : N) : (c < 256)%N -> Byte.to_N (byte_of_N c) = c.
Proof.
  intros H. unfold byte_of_N.
  destruct (Byte.of_N c) as [b |] eqn:E.
  - now apply Byte.to_of_N.
  - apply Byte.of_N_None_iff in E. lia.
Qed.

Lemma encode_ascii_ignore_7bit (s : pystr) :
  Forall (fun b => (Byte.to_N b < 128)%N) (encode_ascii_ignore s).
Proof.
  unfold encode_ascii_ignore. apply Forall_map, Forall_forall.
  intros c Hc. apply filter_In in Hc. destruct Hc as [_ Hc].
  unfold is_ascii in Hc. apply N.ltb_lt in Hc.
  rewrite byte_of_N_small; lia.
Qed.

Lemma encode_ascii_ignore_none (s : pystr) :
  Forall (fun c => (128 <= c)%N) s -> encode_ascii_ignore s = [].
Proof.
  unfold encode_ascii_ignore. induction 1 as [| c s Hc _ IH]; simpl; trivial.
  unfold is_ascii at 1. destruct (N.ltb_spec c 128); [lia | exact IH].
Qed.

Lemma encode_ascii_ignore_codes (s : pystr) :
  map Byte.to_N (encode_ascii_ignore s) = filter (fun c => (c <? 128)%N) s.
Proof.
  unfold encode_ascii_ignore, is_ascii.
  induction s as [| c s IH]; [reflexivity |].
  cbn [filter]. destruct (N.ltb_spec c 128); [| exact IH].
  cbn [map]. rewrite IH, byte_of_N_small by lia. reflexivity.
Qed.

(** ** The layout of a field and the frame of a line *)

Section Layout.

Variable nfkd : pystr -> pystr.

Lemma toField_eq (text : pystr) :
  toField nfkd text = firstn 20 (ljust (encode_ascii_ignore (nfkd text)) 20).
Proof. unfold toField. now rewrite slice_prefix by lia. Qed.

Lemma toField_length (text : pystr) : length (toField nfkd text) = 20%nat.
Proof.
  rewrite toField_eq. unfold ljust.
  rewrite length_firstn, length_app, repeat_length. lia.
Qed.

Lemma emits_write_line (text : pystr) (line : option Z) :
  emits (write_line nfkd text line) tt
        (line_events nfkd text (coerce_line line)).
Proof.
  destruct (line_byte_encode _ (coerce_line_range line)) as [E1 E2].
  intros t. unfold write_line, bind, lift.
  rewrite E1, E2, emits_command.
  unfold line_events, line_frame. simpl. now rewrite app_nil_r.
Qed.

(** C8: for a valid line [1..4] the frame written by [write_line] is byte
    for byte FE 47 01 <line> followed by the 20 bytes of the field, and so
    is the frame [command] builds for any 20-byte field; every frame that
    [command] writes, and the frame of [__init__], begins with FE. *)
Theorem write_line_frame_bytes (text : pystr) (line : Z) (field : bytes)
        (t : trace) :
  1 <= line <= 4 ->
  length field = 20%nat ->
  command [[x47]; [x01]; [line_byte line]; field] t =
    (Returned tt,
     t ++ [Write (xfe :: x47 :: x01 :: line_byte line :: field);
           Sleep DELAY])
  /\ write_line nfkd text (Some line) t =
       (Returned tt,
        t ++ [Write (xfe :: x47 :: x01 :: line_byte line
                         :: toField nfkd text);
              Sleep DELAY])
  /\ length (toField nfkd text) = 20%nat
  /\ Byte.to_N (line_byte line) = Z.to_N line
  /\ (forall cmd t', exists rest,
         command cmd t' =
           (Returned tt, t' ++ [Write (xfe :: rest); Sleep DELAY]))
  /\ (forall t', init t' = (Returned tt, t' ++ [Write [xfe; x56; x00]])).
Proof.
  intros Hl Hf. split; [| split; [| split; [| split; [| split]]]].
  - rewrite emits_command. simpl. now rewrite app_nil_r.
  - rewrite emits_write_line, coerce_line_valid by assumption. reflexivity.
  - apply toField_length.
  - unfold line_byte. apply byte_of_N_small. lia.
  - intros cmd t'. exists (concat cmd). apply emits_command.
  - intros t'. reflexivity.
Qed.

(** C6: a line index outside [1,4], or no index at all, gives exactly the
    result of the same call on line 1: the frame is the one of line 1 and
    no exception is raised. *)
Theorem write_line_out_of_range (text : pystr) (L : Z) (t : trace) :
  L < 1 \/ 4 < L ->
  write_line nfkd text (Some L) t = write_line nfkd text (Some 1) t
  /\ write_line nfkd text None t = write_line nfkd text (Some 1) t
  /\ write_line nfkd text (Some L) t =
       (Returned tt,
        t ++ [Write (xfe :: x47 :: x01 :: x01 :: toField nfkd text);
              Sleep DELAY]).
Proof.
  intros H.
  assert (E : coerce_line (Some L) = 1).
  { simpl. destruct (Z.ltb_spec L 1); simpl; trivial.
    destruct (Z.gtb_spec L 4); trivial. lia. }
  split; [| split].
  - rewrite !emits_write_line. now rewrite E.
  - rewrite !emits_write_line. reflexivity.
  - rewrite emits_write_line, E. reflexivity.
Qed.

(** C5: the field of every text has exactly 20 bytes.  It is made from the
    normalised text: every character below 128 is kept, in order, as the
    byte of its own value, and every other character is dropped, without
    raising; the result is padded with spaces on the right or cut to 20
    bytes.  So every byte is a 7-bit value, and the empty text, and a text
    whose normalisation has no character below 128 at all, give the field
    of 20 spaces. *)
Theorem toField_layout (T : pystr) :
  nfkd [] = [] ->
  length (toField nfkd T) = 20%nat
  /\ map Byte.to_N (encode_ascii_ignore (nfkd T))
     = filter (fun c => (c <? 128)%N) (nfkd T)
  /\ map Byte.to_N (toField nfkd T)
     = firstn 20
         (filter (fun c => (c <? 128)%N) (nfkd T)
            ++ repeat 32%N
                 (20 - length (filter (fun c => (c <? 128)%N) (nfkd T))))
  /\ ((length (encode_ascii_ignore (nfkd T)) <= 20)%nat ->
      toField nfkd T =
        encode_ascii_ignore (nfkd T)
          ++ repeat x20 (20 - length (encode_ascii_ignore (nfkd T))))
  /\ ((20 <= length (encode_ascii_ignore (nfkd T)))%nat ->
      toField nfkd T = firstn 20 (encode_ascii_ignore (nfkd T)))
  /\ Forall (fun b => (Byte.to_N b < 128)%N) (toField nfkd T)
  /\ (T = [] -> toField nfkd T = repeat x20 20)
  /\ (Forall (fun c => (128 <= c)%N) (nfkd T) ->
      toField nfkd T = repeat x20 20).
Proof.
  intros Hnil. split; [apply toField_length |].
  split; [apply encode_ascii_ignore_codes |].
  split.
  { rewrite toField_eq. unfold ljust.
    assert (L : length (filter (fun c => (c <? 128)%N) (nfkd T))
                = length (encode_ascii_ignore (nfkd T)))
      by (rewrite <- encode_ascii_ignore_codes; apply length_map).
    rewrite <- firstn_map, map_app, map_repeat, encode_ascii_ignore_codes.
    now rewrite L. }
  split; [| split; [| split; [| split]]].
  - intros Hle. rewrite toField_eq. unfold ljust.
    apply firstn_all2. rewrite length_app, repeat_length. lia.
  - intros Hge. rewrite toField_eq. unfold ljust.
    replace (20 - length (encode_ascii_ignore (nfkd T)))%nat with O by lia.
    now rewrite app_nil_r.
  - rewrite toField_eq. unfold ljust.
    apply Forall_forall. intros b Hb.
    apply In_firstn in Hb. apply in_app_or in Hb.
    destruct Hb as [Hb | Hb].
    + pose proof (encode_ascii_ignore_7bit (nfkd T)) as F.
      rewrite Forall_forall in F. now apply F.
    + apply repeat_spec in Hb. subst b. reflexivity.
  - intros ->. rewrite toField_eq, Hnil. reflexivity.
  - intros Hall. rewrite toField_eq, encode_ascii_ignore_none by assumption.
    reflexivity.
Qed.

End Layout.

(** ** The multi-line operations *)

Lemma writes_concat_repeat (X : list event) (n : nat) :
  writes (concat (repeat X n)) = concat (repeat (writes X) n).
Proof.
  induction n as [| n IH]; simpl; trivial. now rewrite writes_app, IH.
Qed.

Lemma length_concat_repeat {A} (X : list A) (n : nat) :
  length (concat (repeat X n)) = (n * length X)%nat.
Proof.
  induction n as [| n IH]; simpl; trivial. rewrite length_app, IH. lia.
Qed.

Lemma ceil20_bounds (n : nat) :
  (n <= 20 * ((n + 19) / 20) < n + 20)%nat.
Proof.
  pose proof (Nat.div_mod_eq (n + 19) 20) as E.
  pose proof (Nat.mod_upper_bound (n + 19) 20) as U.
  lia.
Qed.

Lemma concat_slices (data : pystr) (m : nat) :
  concat (map (fun k => firstn 20 (skipn (20 * k) data)) (seq 0 m))
  = firstn (20 * m) data.
Proof.
  induction m as [| m IH]; [reflexivity |].
  rewrite seq_S, map_app, concat_app, IH. simpl concat.
  rewrite app_nil_r. cbn [Nat.add].
  replace (20 * S m)%nat with (20 * m + 20)%nat by lia.
  now rewrite firstn_plus.
Qed.

Lemma chunks20_length (data : pystr) :
  length (chunks20 data) = ((length data + 19) / 20)%nat.
Proof. unfold chunks20. now rewrite length_map, length_seq. Qed.

Lemma chunks20_concat (data : pystr) : concat (chunks20 data) = data.
Proof.
  unfold chunks20. rewrite concat_slices.
  apply firstn_all2. pose proof (ceil20_bounds (length data)). lia.
Qed.

Lemma chunks20_nth (data : pystr) (k : nat) :
  (k < length (chunks20 data))%nat ->
  nth k (chunks20 data) [] = firstn 20 (skipn (20 * k) data).
Proof.
  rewrite chunks20_length. intros H. unfold chunks20.
  rewrite (nth_indep _ [] (firstn 20 (skipn (20 * 0) data)))
    by (now rewrite length_map, length_seq).
  rewrite (map_nth (fun k => firstn 20 (skipn (20 * k) data))).
  now rewrite seq_nth.
Qed.

Lemma chunks20_sizes (data : pystr) :
  Forall (fun c => (1 <= length c <= 20)%nat) (chunks20 data)
  /\ (forall k, (S k < length (chunks20 data))%nat ->
                length (nth k (chunks20 data) []) = 20%nat).
Proof.
  pose proof (ceil20_bounds (length data)) as B.
  split.
  - unfold chunks20. apply Forall_forall. intros c Hc.
    apply in_map_iff in Hc. destruct Hc as [k [<- Hk]].
    apply in_seq in Hk.
    rewrite length_firstn, length_skipn. lia.
  - intros k Hk. rewrite chunks20_nth by lia.
    rewrite chunks20_length in Hk.
    rewrite length_firstn, length_skipn. lia.
Qed.

Lemma for_each_with_ext {A V} (body1 body2 : V -> A -> io V) (l : list A) :
  (forall v x, In x l -> body1 v x = body2 v x) ->
  forall v t, for_each_with l v body1 t = for_each_with l v body2 t.
Proof.
  induction l as [| x l IH]; intros H v t; simpl; trivial.
  unfold bind. rewrite (H v x) by now left.
  destruct (body2 v x t) as [[a | e |] t']; trivial.
  apply IH. intros v' y Hy. apply H. now right.
Qed.

Lemma range3_offsets (n : nat) :
  range3 0 (Z.of_nat n) 20 =
  map (fun k => 20 * Z.of_nat k) (seq 0 ((n + 19) / 20)).
Proof.
  rewrite range3_unfold by lia. f_equal. f_equal.
  replace (Z.of_nat n + 20 - 1) with (Z.of_nat (n + 19)) by lia.
  change 20 with (Z.of_nat 20).
  now rewrite <- Nat2Z.inj_div, Nat2Z.id.
Qed.

Lemma scroll_windows_length (lines : list pystr) :
  length (scroll_windows lines) = (length lines - 3)%nat.
Proof.
  unfold scroll_windows, len, SCREEN_LINES.
  rewrite length_map, length_seq. lia.
Qed.

Lemma scroll_windows_full (lines : list pystr) :
  Forall (fun w => length w = 4%nat) (scroll_windows lines).
Proof.
  unfold scroll_windows, SCREEN_LINES. apply Forall_forall. intros w Hw.
  apply in_map_iff in Hw. destruct Hw as [off [<- Hoff]].
  apply in_seq in Hoff. unfold len in Hoff.
  rewrite slice_from by lia.
  rewrite length_firstn, length_skipn. lia.
Qed.

Section Operations.

Variable nfkd : pystr -> pystr.

Lemma emits_write_line_valid (text : pystr) (row : Z) :
  1 <= row <= 4 ->
  emits (write_line nfkd text (Some row)) tt (line_events nfkd text row).
Proof.
  intros H. rewrite <- (coerce_line_valid row H) at 2.
  apply emits_write_line.
Qed.

Lemma emits_rows (texts : list pystr) :
  forall row,
    1 <= row -> row + len texts <= 5 ->
    emits (for_each_with texts row
             (fun line linetext =>
                write_line nfkd linetext (Some line) ;; ret (line + 1)))
          (row + len texts) (rows_events nfkd row texts).
Proof.
  induction texts as [| x rest IH]; intros row H1 H5.
  - simpl. unfold len. simpl. rewrite Z.add_0_r. apply emits_ret.
  - assert (Hlen : len (x :: rest) = 1 + len rest)
      by (unfold len; simpl length; lia).
    pose proof (len_nonneg rest) as Hr.
    rewrite Hlen in *. cbn [for_each_with rows_events].
    replace (row + (1 + len rest)) with ((row + 1) + len rest) by lia.
    apply emits_bind with (a := row + 1).
    + rewrite <- (app_nil_r (line_events nfkd x row)).
      apply emits_bind with (a := tt); [| apply emits_ret].
      apply emits_write_line_valid. lia.
    + apply IH; lia.
Qed.

Lemma rows_events_writes (texts : list pystr) :
  forall row,
    1 <= row -> row + len texts <= 5 ->
    length (writes (rows_events nfkd row texts)) = length texts
    /\ Forall (fun f => exists l field,
                   f = xfe :: x47 :: x01 :: l :: field
                   /\ (1 <= Byte.to_N l <= 4)%N
                   /\ length field = 20%nat)
              (writes (rows_events nfkd row texts)).
Proof.
  induction texts as [| x rest IH]; intros row H1 H5; simpl.
  - split; [reflexivity | constructor].
  - assert (Hlen : len (x :: rest) = 1 + len rest)
      by (unfold len; simpl length; lia).
    pose proof (len_nonneg rest) as Hr.
    rewrite Hlen in H5.
    destruct (IH (row + 1)) as [IHn IHf]; [lia | lia |].
    split; [now rewrite IHn |].
    constructor; [| exact IHf].
    exists (line_byte row), (toField nfkd x).
    split; [reflexivity |].
    split; [apply line_byte_range; lia | apply toField_length].
Qed.

Lemma emits_write_lines (textlines : list pystr) :
  emits (write_lines nfkd textlines) tt (lines_events nfkd textlines).
Proof.
  unfold write_lines, lines_events.
  rewrite slice_prefix by (unfold SCREEN_LINES; lia).
  change (Z.to_nat SCREEN_LINES) with 4%nat.
  rewrite <- (app_nil_r (rows_events _ _ _)).
  apply emits_bind with (a := 1 + len (firstn 4 textlines));
    [| apply emits_ret].
  apply emits_rows; [lia |].
  unfold len. rewrite length_firstn. lia.
Qed.

Lemma lines_events_writes (w : list pystr) :
  length (writes (lines_events nfkd w)) = Nat.min 4 (length w).
Proof.
  unfold lines_events.
  destruct (rows_events_writes (firstn 4 w) 1) as [E _]; [lia | |].
  - unfold len. rewrite length_firstn. lia.
  - now rewrite E, length_firstn.
Qed.

(** C7: [clear_screen] writes exactly four frames, to lines 1, 2, 3, 4 in
    that order, each with the field of 20 spaces. *)
Theorem clear_screen_frames (t : trace) :
  nfkd (str_of " ") = str_of " " ->
  clear_screen nfkd t =
    (Returned tt,
     t ++ [Write ([xfe; x47; x01; x01] ++ repeat x20 20); Sleep DELAY;
           Write ([xfe; x47; x01; x02] ++ repeat x20 20); Sleep DELAY;
           Write ([xfe; x47; x01; x03] ++ repeat x20 20); Sleep DELAY;
           Write ([xfe; x47; x01; x04] ++ repeat x20 20); Sleep DELAY]).
Proof.
  intros Hsp.
  assert (F : toField nfkd (str_of " ") = repeat x20 20)
    by (rewrite toField_eq, Hsp; reflexivity).
  assert (E : emits (clear_screen nfkd) tt
                (line_events nfkd (str_of " ") 1
                 ++ line_events nfkd (str_of " ") 2
                 ++ line_events nfkd (str_of " ") 3
                 ++ line_events nfkd (str_of " ") 4 ++ [])).
  { unfold clear_screen.
    change (range3 1 (SCREEN_LINES + 1) 1) with [1; 2; 3; 4].
    simpl for_each.
    repeat (apply emits_bind with (a := tt);
            [apply emits_write_line_valid; lia |]).
    apply emits_ret. }
  rewrite E. unfold line_events, line_frame. rewrite F. reflexivity.
Qed.

(** C3: for a count >= 0 (and a tick that [time.sleep] accepts),
    [write_line_flash] returns after writing exactly 2*count + 1 frames,
    all to the coerced line, the field of the text and the field of 20
    spaces in turn, and the last frame written carries the field of the
    text (so it is not the blank frame unless the text itself lays out to
    20 spaces). *)
Theorem write_line_flash_frames (text : pystr) (line : option Z)
        (count : Z) (tick : Q) (t : trace) :
  0 <= count ->
  (0 <= tick)%Q ->
  nfkd [] = [] ->
  exists evs,
    write_line_flash nfkd text line count tick t = (Returned tt, t ++ evs)
    /\ writes evs =
         concat (repeat
                   [line_frame (coerce_line line) (toField nfkd text);
                    line_frame (coerce_line line) (repeat x20 20)]
                   (Z.to_nat count))
           ++ [line_frame (coerce_line line) (toField nfkd text)]
    /\ len (writes evs) = 2 * count + 1
    /\ last (writes evs) [] =
         line_frame (coerce_line line) (toField nfkd text)
    /\ (toField nfkd text <> repeat x20 20 ->
        last (writes evs) [] <>
          line_frame (coerce_line line) (repeat x20 20))
    /\ 1 <= coerce_line line <= 4.
Proof.
  intros Hc Ht Hnil.
  apply Qle_bool_iff in Ht.
  assert (B : toField nfkd (str_of "") = repeat x20 20)
    by (rewrite toField_eq; change (str_of "") with (@nil N);
        rewrite Hnil; reflexivity).
  set (on := line_events nfkd text (coerce_line line)).
  set (off := line_events nfkd (str_of "") (coerce_line line)).
  set (round := on ++ [Sleep tick] ++ off ++ [Sleep tick]).
  assert (E : emits (write_line_flash nfkd text line count tick) tt
                (concat (repeat round (Z.to_nat count)) ++ on)).
  { unfold write_line_flash.
    apply emits_bind with (a := tt).
    - rewrite <- (iter_events_const round (Z.to_nat count) 0).
      replace (Z.to_nat count) with (Z.to_nat (count - 0)) by (f_equal; lia).
      apply emits_while; [lia |].
      intros j _.
      apply emits_bind with (a := tt); [apply emits_write_line |].
      apply emits_bind with (a := tt); [now apply emits_sleep |].
      apply emits_bind with (a := tt); [apply emits_write_line |].
      now apply emits_sleep.
    - apply emits_write_line. }
  eexists. split; [apply E |].
  assert (W : writes (concat (repeat round (Z.to_nat count)) ++ on) =
              concat (repeat
                        [line_frame (coerce_line line) (toField nfkd text);
                         line_frame (coerce_line line) (repeat x20 20)]
                        (Z.to_nat count))
                ++ [line_frame (coerce_line line) (toField nfkd text)]).
  { rewrite writes_app, writes_concat_repeat.
    unfold round, on, off, line_events. simpl writes. now rewrite B. }
  rewrite W. split; [reflexivity |]. split; [| split; [| split]].
  - unfold len. rewrite length_app, length_concat_repeat. simpl length. lia.
  - apply last_last.
  - intros Hne. rewrite last_last. unfold line_frame. intros Heq.
    apply app_inv_head in Heq. contradiction.
  - apply coerce_line_range.
Qed.

Lemma wrapped_loop (data : pystr) (t : trace) :
  for_each_with (range3 0 (len data) 20) 1
    (fun row i =>
       write_line nfkd (slice data i (i + 20)) (Some row) ;; ret (row + 1)) t
  = for_each_with (chunks20 data) 1
      (fun row chunk => write_line nfkd chunk (Some row) ;; ret (row + 1)) t.
Proof.
  unfold len, chunks20. rewrite range3_offsets, !for_each_with_map.
  apply for_each_with_ext. intros row k _.
  rewrite slice_from by lia.
  replace (Z.to_nat (20 * Z.of_nat k + 20 - 20 * Z.of_nat k))
    with 20%nat by lia.
  replace (Z.to_nat (20 * Z.of_nat k)) with (20 * k)%nat by lia.
  reflexivity.
Qed.

Lemma wrapped_chunks_count (text : pystr) :
  (length (chunks20 (firstn 79 text)) <= 4)%nat.
Proof.
  rewrite chunks20_length.
  pose proof (ceil20_bounds (length (firstn 79 text))) as B.
  pose proof (firstn_le_length 79 text). lia.
Qed.

Lemma emits_write_data_wrapped (text : pystr) :
  emits (write_data_wrapped nfkd text) tt
        (rows_events nfkd 1 (chunks20 (firstn 79 text))).
Proof.
  intros t. unfold write_data_wrapped, bind.
  rewrite slice_prefix by lia. change (Z.to_nat 79) with 79%nat.
  rewrite wrapped_loop, emits_rows; [reflexivity | lia |].
  pose proof (wrapped_chunks_count text). unfold len. lia.
Qed.

(** C9: [write_data_wrapped] depends only on the first 79 characters of
    the text; it cuts them into consecutive slices of 20 characters (the
    slices, put together again, are those characters; each slice but the
    last has exactly 20 of them) and writes the slices in order, one
    frame each, to lines 1, 2, ... *)
Theorem write_data_wrapped_chunks (text : pystr) (t : trace) :
  write_data_wrapped nfkd text t =
    (Returned tt, t ++ rows_events nfkd 1 (chunks20 (firstn 79 text)))
  /\ write_data_wrapped nfkd text t =
       write_data_wrapped nfkd (firstn 79 text) t
  /\ concat (chunks20 (firstn 79 text)) = firstn 79 text
  /\ Forall (fun c => (1 <= length c <= 20)%nat) (chunks20 (firstn 79 text))
  /\ (forall k, (S k < length (chunks20 (firstn 79 text)))%nat ->
                length (nth k (chunks20 (firstn 79 text)) []) = 20%nat)
  /\ (forall k, (k < length (chunks20 (firstn 79 text)))%nat ->
                nth k (chunks20 (firstn 79 text)) [] =
                  slice text (20 * Z.of_nat k)
                        (Z.min 79 (20 * Z.of_nat k + 20)))
  /\ length (writes (rows_events nfkd 1 (chunks20 (firstn 79 text))))
     = length (chunks20 (firstn 79 text)).
Proof.
  pose proof (wrapped_chunks_count text) as C4.
  split; [apply emits_write_data_wrapped |].
  split.
  { rewrite !emits_write_data_wrapped. now rewrite firstn_firstn. }
  split; [apply chunks20_concat |].
  split; [apply chunks20_sizes |].
  split; [apply chunks20_sizes |].
  split.
  - intros k Hk. rewrite chunks20_nth by assumption.
    rewrite slice_from by lia.
    replace (Z.to_nat (20 * Z.of_nat k)) with (20 * k)%nat by lia.
    rewrite skipn_firstn_comm, firstn_firstn.
    f_equal. lia.
  - apply rows_events_writes; [lia | unfold len; lia].
Qed.

(** C10: whatever the text, [write_data_wrapped] writes at most 4 frames,
    each of them a "write line" frame whose line byte is between 1 and 4:
    the 79 characters kept give at most four slices, so no line beyond
    SCREEN_LINES is addressed. *)
Theorem write_data_wrapped_bounded (text : pystr) (t : trace) :
  exists evs,
    write_data_wrapped nfkd text t = (Returned tt, t ++ evs)
    /\ (length (writes evs) <= 4)%nat
    /\ Forall (fun f => exists l field,
                   f = xfe :: x47 :: x01 :: l :: field
                   /\ (1 <= Byte.to_N l <= 4)%N
                   /\ length field = 20%nat)
              (writes evs).
Proof.
  pose proof (wrapped_chunks_count text) as C4.
  exists (rows_events nfkd 1 (chunks20 (firstn 79 text))).
  split; [apply emits_write_data_wrapped |].
  destruct (rows_events_writes (chunks20 (firstn 79 text)) 1)
    as [E F]; [lia | unfold len; lia |].
  split; [lia | exact F].
Qed.

Lemma windows_events_writes (speed : Q) (ws : list (list pystr)) :
  Forall (fun w => length w = 4%nat) ws ->
  length (writes (windows_events nfkd speed ws)) = (4 * length ws)%nat.
Proof.
  unfold windows_events.
  induction 1 as [| w ws Hw _ IH]; [reflexivity |].
  cbn [map concat]. rewrite !writes_app, !length_app, IH.
  rewrite lines_events_writes, Hw. simpl. lia.
Qed.

Lemma emits_write_lines_scroll (lines : list pystr) (speed : Q) :
  SCREEN_LINES + 1 <= len lines ->
  (0 <= speed)%Q ->
  emits (write_lines_scroll nfkd lines speed) tt
        (windows_events nfkd speed (scroll_windows lines)).
Proof.
  intros Hn Hs. apply Qle_bool_iff in Hs.
  unfold write_lines_scroll, windows_events, scroll_windows.
  destruct (Z.ltb_spec (len lines) (SCREEN_LINES + 1)) as [H | _]; [lia |].
  cbv zeta. rewrite map_map.
  set (bound := len lines - (SCREEN_LINES - 1)).
  set (E := fun k : Z =>
              lines_events nfkd (slice lines k (k + SCREEN_LINES))
                ++ [Sleep speed]).
  replace (concat (map _ (seq 0 (Z.to_nat bound))))
    with (iter_events (Z.to_nat (bound - 0)) 0 E).
  - apply emits_while; [lia |].
    intros j _. unfold E.
    apply emits_bind with (a := tt);
      [apply emits_write_lines | now apply emits_sleep].
  - rewrite Z.sub_0_r, iter_events_seq. reflexivity.
Qed.

(** C1 (as amended): for a list of at least SCREEN_LINES + 1 lines (and a
    speed that [time.sleep] accepts), [write_lines_scroll] shows the
    windows [lines[offset : offset+4]] for the offsets 0 up to
    [len(lines) - (SCREEN_LINES-1) - 1] inclusive, each through
    [write_lines] and followed by the sleep; these are
    [len(lines) - SCREEN_LINES + 1] windows of four lines each. *)
Theorem write_lines_scroll_windows (lines : list pystr) (speed : Q)
        (t : trace) :
  SCREEN_LINES + 1 <= len lines ->
  (0 <= speed)%Q ->
  write_lines_scroll nfkd lines speed t =
    (Returned tt, t ++ windows_events nfkd speed (scroll_windows lines))
  /\ (forall off : nat,
         0 <= Z.of_nat off <= len lines - (SCREEN_LINES - 1) - 1 ->
         In (slice lines (Z.of_nat off) (Z.of_nat off + 4))
            (scroll_windows lines))
  /\ (forall k : nat,
         (k < length (scroll_windows lines))%nat ->
         nth k (scroll_windows lines) [] =
           slice lines (Z.of_nat k) (Z.of_nat k + 4))
  /\ len (scroll_windows lines) = len lines - SCREEN_LINES + 1
  /\ Forall (fun w => length w = 4%nat) (scroll_windows lines)
  /\ displays_windows nfkd lines speed (len lines - SCREEN_LINES + 1)
  /\ len (writes (windows_events nfkd speed (scroll_windows lines)))
     = 4 * (len lines - SCREEN_LINES + 1).
Proof.
  intros Hn Hs.
  assert (L : len (scroll_windows lines) = len lines - SCREEN_LINES + 1).
  { unfold len in *. rewrite scroll_windows_length.
    unfold SCREEN_LINES in *. lia. }
  split; [now apply emits_write_lines_scroll |].
  split.
  { intros off Hoff. unfold scroll_windows.
    apply in_map_iff. exists off. split; [reflexivity |].
    apply in_seq. unfold SCREEN_LINES in *. lia. }
  split.
  { intros k Hk. rewrite scroll_windows_length in Hk.
    unfold scroll_windows.
    rewrite (nth_indep _ [] (slice lines (Z.of_nat 0)
                                   (Z.of_nat 0 + SCREEN_LINES)))
      by (rewrite length_map, length_seq; unfold len, SCREEN_LINES; lia).
    rewrite (map_nth (fun off => slice lines (Z.of_nat off)
                                       (Z.of_nat off + SCREEN_LINES))).
    rewrite seq_nth by (unfold len, SCREEN_LINES; lia).
    reflexivity. }
  split; [exact L |].
  split; [apply scroll_windows_full |].
  split.
  { exists (scroll_windows lines).
    split; [exact L |]. split; [apply scroll_windows_full |].
    intros t'. now apply emits_write_lines_scroll. }
  unfold len in *.
  rewrite windows_events_writes by apply scroll_windows_full. lia.
Qed.

(** C4: on the five lines a, b, c, d, e, [write_lines_scroll] shows
    exactly two windows, a b c d and then b c d e, each as [write_lines]
    writes it (four frames, lines 1 to 4), each followed by the sleep; and
    on a list of fewer than SCREEN_LINES + 1 lines it does exactly what
    [write_lines] does. *)
Theorem write_lines_scroll_five_and_short (t : trace) :
  let a := str_of "a" in
  let b := str_of "b" in
  let c := str_of "c" in
  let d := str_of "d" in
  let e := str_of "e" in
  write_lines_scroll nfkd [a; b; c; d; e] 0 t =
    (Returned tt,
     t ++ [Write (line_frame 1 (toField nfkd a)); Sleep DELAY;
           Write (line_frame 2 (toField nfkd b)); Sleep DELAY;
           Write (line_frame 3 (toField nfkd c)); Sleep DELAY;
           Write (line_frame 4 (toField nfkd d)); Sleep DELAY;
           Sleep 0;
           Write (line_frame 1 (toField nfkd b)); Sleep DELAY;
           Write (line_frame 2 (toField nfkd c)); Sleep DELAY;
           Write (line_frame 3 (toField nfkd d)); Sleep DELAY;
           Write (line_frame 4 (toField nfkd e)); Sleep DELAY;
           Sleep 0])
  /\ (forall t',
         write_lines nfkd [a; b; c; d] t' =
           (Returned tt,
            t' ++ [Write (line_frame 1 (toField nfkd a)); Sleep DELAY;
                   Write (line_frame 2 (toField nfkd b)); Sleep DELAY;
                   Write (line_frame 3 (toField nfkd c)); Sleep DELAY;
                   Write (line_frame 4 (toField nfkd d)); Sleep DELAY]))
  /\ (forall t',
         write_lines nfkd [b; c; d; e] t' =
           (Returned tt,
            t' ++ [Write (line_frame 1 (toField nfkd b)); Sleep DELAY;
                   Write (line_frame 2 (toField nfkd c)); Sleep DELAY;
                   Write (line_frame 3 (toField nfkd d)); Sleep DELAY;
                   Write (line_frame 4 (toField nfkd e)); Sleep DELAY]))
  /\ displays_windows nfkd [a; b; c; d; e] 0 2
  /\ (forall (lines : list pystr) (speed : Q) (t' : trace),
         len lines < SCREEN_LINES + 1 ->
         write_lines_scroll nfkd lines speed t' = write_lines nfkd lines t').
Proof.
  intros a b c d e.
  assert (H5 : SCREEN_LINES + 1 <= len [a; b; c; d; e])
    by (vm_compute; discriminate).
  assert (H0 : (0 <= 0)%Q) by apply Qle_refl.
  split.
  { rewrite (emits_write_lines_scroll [a; b; c; d; e] 0 H5 H0). reflexivity. }
  split.
  { intros t'. rewrite emits_write_lines. reflexivity. }
  split.
  { intros t'. rewrite emits_write_lines. reflexivity. }
  split.
  { exists (scroll_windows [a; b; c; d; e]).
    split; [reflexivity |]. split; [apply scroll_windows_full |].
    intros t'. now apply emits_write_lines_scroll. }
  intros lines speed t' Hlt. unfold write_lines_scroll.
  destruct (Z.ltb_spec (len lines) (SCREEN_LINES + 1)); [reflexivity | lia].
Qed.

End Operations.

(** ** Contrast *)

(** Outside [range(0x110000)] [chr] raises before anything is written:
    ValueError for a C int, OverflowError beyond. *)
Lemma set_contrast_not_a_code_point (amount : Z) (t : trace) :
  -2147483648 <= amount < 0 \/ 0x110000 <= amount <= 2147483647 ->
  set_contrast amount t = (Raised ValueError, t).
Proof.
  intros H. unfold set_contrast, bind, lift, chr.
  destruct (Z.ltb_spec amount (-2147483648)); [lia |].
  destruct (Z.ltb_spec 2147483647 amount); [lia |].
  destruct (Z.leb_spec 0 amount); destruct (Z.ltb_spec amount 0x110000);
    cbn [orb andb]; trivial; lia.
Qed.

Lemma set_contrast_not_a_c_int (amount : Z) (t : trace) :
  amount < -2147483648 \/ 2147483647 < amount ->
  set_contrast amount t = (Raised OverflowError, t).
Proof.
  intros H. unfold set_contrast, bind, lift, chr.
  destruct (Z.ltb_spec amount (-2147483648));
    destruct (Z.ltb_spec 2147483647 amount); cbn [orb]; trivial; lia.
Qed.

(** A level below 128 is sent as the single byte of that value. *)
Lemma set_contrast_ascii (amount : Z) (t : trace) :
  0 <= amount < 128 ->
  set_contrast amount t =
    (Returned tt,
     t ++ [Write [xfe; x50; byte_of_N (Z.to_N amount)]; Sleep DELAY]).
Proof.
  intros H.
  assert (C : chr amount = Returned [Z.to_N amount]).
  { unfold chr.
    destruct (Z.ltb_spec amount (-2147483648)); [lia |].
    destruct (Z.ltb_spec 2147483647 amount); [lia |].
    destruct (Z.leb_spec 0 amount); [| lia].
    destruct (Z.ltb_spec amount 0x110000); [reflexivity | lia]. }
  assert (E : str_encode [Z.to_N amount]
              = Returned [byte_of_N (Z.to_N amount)]).
  { cbn [str_encode]. unfold utf8_char.
    destruct (N.ltb_spec (Z.to_N amount) 128); [reflexivity | lia]. }
  unfold set_contrast, bind, lift. rewrite C, E.
  now rewrite emits_command.
Qed.

(** C2: the code at the failing input.  [set_contrast(256)] raises nothing
    and writes the frame FE 50 C4 80: [chr(256).encode()] gives the two
    UTF-8 bytes C4 80 where one parameter byte was meant, so the level that
    does not fit one byte is not rejected and a frame of four bytes goes
    out. *)
Theorem set_contrast_256_writes (t : trace) :
  set_contrast 256 t =
    (Returned tt, t ++ [Write [xfe; x50; xc4; x80]; Sleep DELAY]).
Proof.
  assert (C : chr 256 = Returned [256%N]) by reflexivity.
  assert (E : str_encode [256%N] = Returned [xc4; x80]) by reflexivity.
  unfold set_contrast, bind, lift. rewrite C, E.
  now rewrite emits_command.
Qed.

(** ** The driver at concrete inputs *)

Example toField_empty : toField nfkd_sample (str_of "") = repeat x20 20.
Proof. reflexivity. Qed.

Example toField_HelloWorld :
  toField nfkd_sample (str_of "HelloWorld")
  = encode_ascii_ignore (str_of "HelloWorld") ++ repeat x20 10.
Proof. reflexivity. Qed.

(** An accented letter is not dropped whole: its base letter survives the
    normalisation, only the combining mark has no encoding. *)
Example toField_accented :
  toField nfkd_sample [0xE9]%N = x65 :: repeat x20 19.
Proof. reflexivity. Qed.

Example set_contrast_200 :
  set_contrast 200 []
  = (Returned tt, [Write [xfe; x50; xc3; x88]; Sleep DELAY]).
Proof. reflexivity. Qed.

Example write_data_wrapped_80 :
  length (writes (snd (write_data_wrapped nfkd_sample (repeat 0x41%N 200) [])))
  = 4%nat.
Proof. reflexivity. Qed.

(** [set_contrast(256)] on a fresh port does not end in an exception with
    nothing written, as a conversion to one byte would. *)
Lemma set_contrast_256_does_not_fail :
  ~ (exists e, set_contrast 256 [] = (Raised e, [])).
Proof.
  intros [e H]. vm_compute in H. discriminate H.
Qed.

(** On the five lines a..e the scroll does not show
    [len(lines) - SCREEN_LINES + 2] = 3 windows of four lines: it writes 8
    frames, three windows would be 12. *)
Lemma scroll_five_lines_not_three_windows :
  ~ displays_windows nfkd_sample five_lines 0
      (len five_lines - SCREEN_LINES + 2).
Proof.
  intros [ws [Hlen [Hfull Hrun]]].
  specialize (Hrun []).
  assert (W : length (writes (snd (write_lines_scroll nfkd_sample
                                     five_lines 0 []))) = 8%nat)
    by (vm_compute; reflexivity).
  rewrite Hrun in W. cbn [snd app] in W.
  rewrite windows_events_writes in W by assumption.
  change (len five_lines - SCREEN_LINES + 2) with 3 in Hlen.
  unfold len in Hlen. lia.
Qed.

(** The five lines a..e scroll as [len(lines) - SCREEN_LINES + 1] = 2
    windows. *)
Lemma write_lines_scroll_windows_witness :
  SCREEN_LINES + 1 <= len five_lines
  /\ (0 <= 0)%Q
  /\ displays_windows nfkd_sample five_lines 0
       (len five_lines - SCREEN_LINES + 1).
Proof.
  assert (H1 : SCREEN_LINES + 1 <= len five_lines)
    by (vm_compute; discriminate).
  assert (H2 : (0 <= 0)%Q) by (unfold Qle; simpl; lia).
  split; [exact H1 | split; [exact H2 |]].
  pose proof (write_lines_scroll_windows nfkd_sample five_lines 0 [] H1 H2)
    as P.
  destruct P as (_ & _ & _ & _ & _ & P & _). exact P.
Defined.

(** Flashing X twice on line 2 writes 5 frames. *)
Lemma write_line_flash_frames_witness :
  0 <= 2
  /\ (0 <= 0)%Q
  /\ nfkd_sample [] = []
  /\ exists evs,
       write_line_flash nfkd_sample (str_of "X") (Some 2) 2 0 [] =
         (Returned tt, [] ++ evs)
       /\ len (writes evs) = 2 * 2 + 1.
Proof.
  assert (H1 : 0 <= 2) by lia.
  assert (H2 : (0 <= 0)%Q) by (unfold Qle; simpl; lia).
  assert (H3 : nfkd_sample [] = []) by reflexivity.
  split; [exact H1 | split; [exact H2 | split; [exact H3 |]]].
  destruct (write_line_flash_frames nfkd_sample (str_of "X") (Some 2) 2 0 []
              H1 H2 H3) as (evs & R & _ & L & _).
  exists evs. split; [exact R | exact L].
Defined.

(** A list of two lines is written as [write_lines] writes it. *)
Lemma write_lines_scroll_short_witness :
  len [str_of "1 As a list"; str_of "2"] < SCREEN_LINES + 1
  /\ write_lines_scroll nfkd_sample [str_of "1 As a list"; str_of "2"]
       (1 # 2) [] =
     write_lines nfkd_sample [str_of "1 As a list"; str_of "2"] [].
Proof.
  assert (H : len [str_of "1 As a list"; str_of "2"] < SCREEN_LINES + 1)
    by reflexivity.
  split; [exact H |].
  pose proof (write_lines_scroll_five_and_short nfkd_sample []) as P.
  cbv zeta in P. destruct P as (_ & _ & _ & _ & P).
  exact (P _ _ _ H).
Defined.

(** The field of a text with an accented letter, a ligature and a CJK
    character has 20 bytes: the letters e, f, i that the normalisation
    leaves below 128, then 17 spaces; the field of the empty text is 20
    spaces, the field of HelloWorld is HelloWorld and 10 spaces. *)
Lemma toField_layout_witness :
  nfkd_sample [] = []
  /\ length (toField nfkd_sample [0xE9; 0xFB01; 0x4E2D]%N) = 20%nat
  /\ map Byte.to_N (toField nfkd_sample [0xE9; 0xFB01; 0x4E2D]%N)
     = [0x65; 0x66; 0x69]%N ++ repeat 32%N 17
  /\ map Byte.to_N (toField nfkd_sample (str_of "HelloWorld"))
     = str_of "HelloWorld" ++ repeat 32%N 10
  /\ toField nfkd_sample [] = repeat x20 20.
Proof.
  assert (H : nfkd_sample [] = []) by reflexivity.
  split; [exact H |].
  destruct (toField_layout nfkd_sample [0xE9; 0xFB01; 0x4E2D]%N H)
    as (L & _ & B & _).
  destruct (toField_layout nfkd_sample (str_of "HelloWorld") H)
    as (_ & _ & W & _).
  destruct (toField_layout nfkd_sample [] H) as (_ & _ & _ & _ & _ & _ & E & _).
  split; [exact L | split; [exact B | split; [exact W | exact (E eq_refl)]]].
Defined.

(** Line 7 is written as line 1. *)
Lemma write_line_out_of_range_witness :
  (7 < 1 \/ 4 < 7)
  /\ write_line nfkd_sample (str_of "Left") (Some 7) [] =
     write_line nfkd_sample (str_of "Left") (Some 1) [].
Proof.
  assert (H : 7 < 1 \/ 4 < 7) by (right; lia).
  split; [exact H |].
  exact (proj1 (write_line_out_of_range nfkd_sample (str_of "Left") 7 [] H)).
Defined.

(** Clearing the screen writes four frames. *)
Lemma clear_screen_frames_witness :
  nfkd_sample (str_of " ") = str_of " "
  /\ length (writes (snd (clear_screen nfkd_sample []))) = 4%nat.
Proof.
  assert (H : nfkd_sample (str_of " ") = str_of " ") by reflexivity.
  split; [exact H |].
  rewrite (clear_screen_frames nfkd_sample [] H). reflexivity.
Defined.

(** The frame of the text Left on line 3. *)
Lemma write_line_frame_bytes_witness :
  1 <= 3 <= 4
  /\ length (repeat x20 20) = 20%nat
  /\ write_line nfkd_sample (str_of "Left") (Some 3) [] =
       (Returned tt,
        [Write (xfe :: x47 :: x01 :: x03
                    :: toField nfkd_sample (str_of "Left"));
         Sleep DELAY]).
Proof.
  assert (H1 : 1 <= 3 <= 4) by lia.
  assert (H2 : length (repeat x20 20) = 20%nat) by reflexivity.
  split; [exact H1 | split; [exact H2 |]].
  exact (proj1 (proj2 (write_line_frame_bytes nfkd_sample (str_of "Left") 3
                         (repeat x20 20) [] H1 H2))).
Defined.

(** The text of the demo is cut into more than one slice, the first of
    which has 20 characters. *)
Lemma write_data_wrapped_chunks_witness :
  (S 0 < length (chunks20 (firstn 79 (str_of
     "this is a long piece of text that will be wrapped as required!"))))%nat
  /\ length (nth 0 (chunks20 (firstn 79 (str_of
       "this is a long piece of text that will be wrapped as required!")))
       []) = 20%nat.
Proof.
  assert (H : (S 0 < length (chunks20 (firstn 79 (str_of
     "this is a long piece of text that will be wrapped as required!"))))%nat)
    by (vm_compute; lia).
  split; [exact H |].
  destruct (write_data_wrapped_chunks nfkd_sample (str_of
     "this is a long piece of text that will be wrapped as required!") [])
    as (_ & _ & _ & _ & P & _).
  exact (P 0%nat H).
Defined.

(** ** Further properties of the driver *)

(** *** The shape of everything the driver sends *)

Lemma framed_app (a b : trace) : framed a -> framed b -> framed (a ++ b).
Proof.
  induction 1 as [| d a _ IH | rest a _ IH]; intros Hb; simpl; trivial.
  - constructor. now apply IH.
  - constructor. now apply IH.
Qed.

Lemma bind_emits {A B} (m : io A) (k : A -> io B) a evs t :
  emits m a evs -> bind m k t = k a (t ++ evs).
Proof. intros H. unfold bind. now rewrite H. Qed.

Lemma emits_appends_framed {A} (m : io A) a evs :
  emits m a evs -> framed evs -> appends_framed m.
Proof. intros H F t. exists evs. now rewrite H. Qed.

Lemma appends_framed_ret {A} (a : A) : appends_framed (ret a).
Proof. intros t. exists []. simpl. rewrite app_nil_r. split; constructor. Qed.

Lemma appends_framed_lift {A} (o : outcome A) : appends_framed (lift o).
Proof. intros t. exists []. simpl. rewrite app_nil_r. split; constructor. Qed.

Lemma appends_framed_sleep (d : Q) : appends_framed (sleep d).
Proof.
  intros t. unfold sleep. destruct (Qle_bool 0 d).
  - exists [Sleep d]. split; [reflexivity | repeat constructor].
  - exists []. simpl. rewrite app_nil_r. split; constructor.
Qed.

Lemma appends_framed_command (cmd : list bytes) :
  appends_framed (command cmd).
Proof.
  apply emits_appends_framed with (1 := emits_command cmd).
  repeat constructor.
Qed.

Lemma appends_framed_bind {A B} (m : io A) (k : A -> io B) :
  appends_framed m -> (forall a, appends_framed (k a)) ->
  appends_framed (bind m k).
Proof.
  intros Hm Hk t. destruct (Hm t) as [e1 [E1 F1]].
  unfold bind. destruct (m t) as [[a | e |] t']; simpl in E1; subst t'.
  - destruct (Hk a (t ++ e1)) as [e2 [E2 F2]].
    exists (e1 ++ e2). rewrite E2, app_assoc.
    split; [reflexivity | now apply framed_app].
  - now exists e1.
  - now exists e1.
Qed.

Lemma appends_framed_for_each {A} (body : A -> io unit) (l : list A) :
  (forall x, appends_framed (body x)) -> appends_framed (for_each l body).
Proof.
  intros H. induction l as [| x l IH]; simpl.
  - apply appends_framed_ret.
  - apply appends_framed_bind; [apply H | intros _; exact IH].
Qed.

Lemma appends_framed_for_each_with {A V} (body : V -> A -> io V) l :
  (forall v x, appends_framed (body v x)) ->
  forall v, appends_framed (for_each_with l v body).
Proof.
  intros H. induction l as [| x l IH]; intros v; simpl.
  - apply appends_framed_ret.
  - apply appends_framed_bind; [apply H | intros v'; apply IH].
Qed.

Lemma appends_framed_while (body : Z -> io unit) (bound : Z) :
  (forall i, appends_framed (body i)) ->
  forall fuel i, appends_framed (while_lt fuel i bound body).
Proof.
  intros H. induction fuel as [| fuel IH]; intros i; simpl;
    destruct (i <? bound); try apply appends_framed_ret.
  - apply appends_framed_lift.
  - apply appends_framed_bind; [apply H | intros _; apply IH].
Qed.

Lemma appends_framed_param (op : byte) (v : Z) :
  appends_framed (c <- lift (chr v) ;;
                  b <- lift (str_encode c) ;;
                  command [[op]; b]).
Proof.
  apply appends_framed_bind; [apply appends_framed_lift | intros c].
  apply appends_framed_bind; [apply appends_framed_lift | intros b].
  apply appends_framed_command.
Qed.

Section Framing.

Variable nfkd : pystr -> pystr.
Variable lower : pystr -> pystr.

Lemma appends_framed_write_line (text : pystr) (line : option Z) :
  appends_framed (write_line nfkd text line).
Proof.
  apply emits_appends_framed with (1 := emits_write_line nfkd text line).
  repeat constructor.
Qed.

Lemma appends_framed_clear_screen : appends_framed (clear_screen nfkd).
Proof.
  apply appends_framed_for_each. intros x. apply appends_framed_write_line.
Qed.

Lemma appends_framed_write_lines (textlines : list pystr) :
  appends_framed (write_lines nfkd textlines).
Proof.
  apply appends_framed_bind; [| intros _; apply appends_framed_ret].
  apply appends_framed_for_each_with. intros v x.
  apply appends_framed_bind; [apply appends_framed_write_line |].
  intros _. apply appends_framed_ret.
Qed.

Lemma appends_framed_write_data_wrapped (text : pystr) :
  appends_framed (write_data_wrapped nfkd text).
Proof.
  apply appends_framed_bind; [| intros _; apply appends_framed_ret].
  apply appends_framed_for_each_with. intros v x.
  apply appends_framed_bind; [apply appends_framed_write_line |].
  intros _. apply appends_framed_ret.
Qed.

Lemma appends_framed_write_line_flash text line count tick :
  appends_framed (write_line_flash nfkd text line count tick).
Proof.
  apply appends_framed_bind;
    [| intros _; apply appends_framed_write_line].
  apply appends_framed_while. intros _.
  apply appends_framed_bind; [apply appends_framed_write_line | intros _].
  apply appends_framed_bind; [apply appends_framed_sleep | intros _].
  apply appends_framed_bind; [apply appends_framed_write_line | intros _].
  apply appends_framed_sleep.
Qed.

Lemma appends_framed_write_lines_scroll textlines speed :
  appends_framed (write_lines_scroll nfkd textlines speed).
Proof.
  unfold write_lines_scroll.
  destruct (len textlines <? SCREEN_LINES + 1).
  - apply appends_framed_write_lines.
  - apply appends_framed_while. intros i.
    apply appends_framed_bind; [apply appends_framed_write_lines |].
    intros _. apply appends_framed_sleep.
Qed.

Lemma appends_framed_backlight_toggle_on (switch : pyval) :
  appends_framed (backlight_toggle_on switch).
Proof.
  unfold backlight_toggle_on.
  destruct (is_True switch); apply appends_framed_command.
Qed.

Lemma appends_framed_write_line_aligned text line align :
  appends_framed (write_line_aligned nfkd lower text line align).
Proof. apply appends_framed_write_line. Qed.

Lemma appends_framed_show_temperature (line : Z) :
  appends_framed (show_temperature line).
Proof. apply appends_framed_param. Qed.

Lemma appends_framed_set_contrast (amount : Z) :
  appends_framed (set_contrast amount).
Proof. apply appends_framed_param. Qed.

Lemma appends_framed_then {A} (m : io A) (k : io unit) :
  appends_framed m -> appends_framed k ->
  appends_framed (bind m (fun _ => k)).
Proof.
  intros Hm Hk. apply appends_framed_bind; [exact Hm | intros _; exact Hk].
Qed.

Lemma appends_framed_demo : appends_framed (demo nfkd lower).
Proof.
  unfold demo.
  apply appends_framed_then; [exact appends_framed_clear_screen |].
  apply appends_framed_then; [exact (appends_framed_backlight_toggle_on _) |].
  apply appends_framed_then; [exact (appends_framed_write_line _ _) |].
  apply appends_framed_then;
    [exact (appends_framed_write_line_aligned _ _ _) |].
  apply appends_framed_then;
    [exact (appends_framed_write_line_aligned _ _ _) |].
  apply appends_framed_then;
    [exact (appends_framed_write_line_flash _ _ _ _) |].
  apply appends_framed_then; [exact (appends_framed_sleep _) |].
  apply appends_framed_then;
    [exact (appends_framed_write_data_wrapped _) |].
  apply appends_framed_then; [exact (appends_framed_sleep _) |].
  apply appends_framed_then; [exact (appends_framed_write_lines _) |].
  apply appends_framed_then; [exact (appends_framed_sleep _) |].
  apply appends_framed_then; [exact appends_framed_clear_screen |].
  apply appends_framed_then;
    [exact (appends_framed_write_lines_scroll _ _) |].
  apply appends_framed_then; [exact (appends_framed_sleep _) |].
  apply appends_framed_then; [exact appends_framed_clear_screen |].
  apply appends_framed_then; [exact (appends_framed_show_temperature _) |].
  apply appends_framed_then; [exact (appends_framed_sleep _) |].
  apply appends_framed_then; [exact appends_framed_clear_screen |].
  apply appends_framed_then; [exact (appends_framed_sleep _) |].
  exact (appends_framed_backlight_toggle_on _).
Qed.

Lemma appends_framed_main_rest (ARGS : Args) :
  appends_framed
    ((if args_clear ARGS then clear_screen nfkd else ret tt) ;;
     (match args_backlight ARGS with
      | Some b =>
          if str_eqb b (str_of "on") then backlight_on
          else if str_eqb b (str_of "off") then backlight_off
          else ret tt
      | None => ret tt
      end) ;;
     (match args_contrast ARGS with
      | Some c => if c =? 0 then ret tt else set_contrast c
      | None => ret tt
      end) ;;
     (if args_demo ARGS then demo nfkd lower else ret tt) ;;
     match args_message ARGS with
     | Some m =>
         match m with
         | [] => ret tt
         | _ =>
             match args_line ARGS with
             | None => write_data_wrapped nfkd m
             | Some l => write_line nfkd m (Some l)
             end
         end
     | None => ret tt
     end).
Proof.
  apply appends_framed_then.
  { destruct (args_clear ARGS);
      [exact appends_framed_clear_screen | apply appends_framed_ret]. }
  apply appends_framed_then.
  { destruct (args_backlight ARGS) as [b |]; [| apply appends_framed_ret].
    destruct (str_eqb b (str_of "on")); [apply appends_framed_command |].
    destruct (str_eqb b (str_of "off"));
      [apply appends_framed_command | apply appends_framed_ret]. }
  apply appends_framed_then.
  { destruct (args_contrast ARGS) as [c |]; [| apply appends_framed_ret].
    destruct (c =? 0);
      [apply appends_framed_ret | exact (appends_framed_set_contrast c)]. }
  apply appends_framed_then.
  { destruct (args_demo ARGS);
      [exact appends_framed_demo | apply appends_framed_ret]. }
  destruct (args_message ARGS) as [[| c m] |]; try apply appends_framed_ret.
  destruct (args_line ARGS) as [l |].
  - exact (appends_framed_write_line _ _).
  - exact (appends_framed_write_data_wrapped _).
Qed.

(** X1: whatever its arguments, and whether it returns or raises, every
    method of the class only appends to what was already sent, every frame
    it writes begins with the lead byte FE, and every frame is followed at
    once by the DELAY pause. *)
Theorem driver_output_framed :
  (forall cmd, appends_framed (command cmd))
  /\ appends_framed backlight_on
  /\ appends_framed backlight_off
  /\ (forall switch, appends_framed (backlight_toggle_on switch))
  /\ (forall amount, appends_framed (set_contrast amount))
  /\ (forall line, appends_framed (show_temperature line))
  /\ appends_framed (clear_screen nfkd)
  /\ (forall text line, appends_framed (write_line nfkd text line))
  /\ (forall text line align,
         appends_framed (write_line_aligned nfkd lower text line align))
  /\ (forall text line count tick,
         appends_framed (write_line_flash nfkd text line count tick))
  /\ (forall text, appends_framed (write_data_wrapped nfkd text))
  /\ (forall textlines, appends_framed (write_lines nfkd textlines))
  /\ (forall textlines speed,
         appends_framed (write_lines_scroll nfkd textlines speed))
  /\ appends_framed (demo nfkd lower).
Proof.
  split; [exact appends_framed_command |].
  split; [apply appends_framed_command |].
  split; [apply appends_framed_command |].
  split; [exact appends_framed_backlight_toggle_on |].
  split; [exact appends_framed_set_contrast |].
  split; [exact appends_framed_show_temperature |].
  split; [exact appends_framed_clear_screen |].
  split; [exact appends_framed_write_line |].
  split; [exact appends_framed_write_line_aligned |].
  split; [exact appends_framed_write_line_flash |].
  split; [exact appends_framed_write_data_wrapped |].
  split; [exact appends_framed_write_lines |].
  split; [exact appends_framed_write_lines_scroll |].
  exact appends_framed_demo.
Qed.

End Framing.

(** *** Contrast, temperature and backlight *)

Lemma chr_code_point (v : Z) :
  0 <= v < 0x110000 -> chr v = Returned [Z.to_N v].
Proof.
  intros H. unfold chr.
  destruct (Z.ltb_spec v (-2147483648)); [lia |].
  destruct (Z.ltb_spec 2147483647 v); [lia |].
  destruct (Z.leb_spec 0 v); [| lia].
  destruct (Z.ltb_spec v 0x110000); [reflexivity | lia].
Qed.

Lemma chr_not_code_point (v : Z) :
  -2147483648 <= v < 0 \/ 0x110000 <= v <= 2147483647 ->
  chr v = Raised ValueError.
Proof.
  intros H. unfold chr.
  destruct (Z.ltb_spec v (-2147483648)); [lia |].
  destruct (Z.ltb_spec 2147483647 v); [lia |].
  destruct (Z.leb_spec 0 v); destruct (Z.ltb_spec v 0x110000);
    cbn [orb andb]; trivial; lia.
Qed.

Lemma chr_not_c_int (v : Z) :
  v < -2147483648 \/ 2147483647 < v -> chr v = Raised OverflowError.
Proof.
  intros H. unfold chr.
  destruct (Z.ltb_spec v (-2147483648));
    destruct (Z.ltb_spec 2147483647 v); cbn [orb]; trivial; lia.
Qed.

Lemma str_encode_one (c : N) :
  str_encode [c] =
  match utf8_char c with
  | Returned b => Returned (b ++ [])
  | other => other
  end.
Proof. reflexivity. Qed.

Lemma utf8_char_two_bytes (c : N) :
  (128 <= c < 2048)%N ->
  exists b1 b2,
    utf8_char c = Returned [b1; b2]
    /\ Byte.to_N b1 = (192 + c / 64)%N
    /\ Byte.to_N b2 = (128 + c mod 64)%N.
Proof.
  intros H.
  assert (A : forallb two_byte_ok (map N.of_nat (seq 128 1920)) = true)
    by (vm_compute; reflexivity).
  rewrite forallb_forall in A.
  assert (I : In c (map N.of_nat (seq 128 1920))).
  { apply in_map_iff. exists (N.to_nat c). split; [apply N2Nat.id |].
    apply in_seq. lia. }
  specialize (A c I). unfold two_byte_ok in A.
  destruct (utf8_char c) as [[| b1 [| b2 [| b3 r]]] | e |]; try discriminate.
  apply andb_prop in A. destruct A as [A1 A2].
  apply N.eqb_eq in A1. apply N.eqb_eq in A2.
  now exists b1, b2.
Qed.

Lemma utf8_char_outcome (c : N) :
  (c < 0x110000)%N ->
  ((0xD800 <= c <= 0xDFFF)%N /\ utf8_char c = Raised UnicodeEncodeError)
  \/ (~ (0xD800 <= c <= 0xDFFF)%N
      /\ exists b, utf8_char c = Returned b
                   /\ (1 <= length b <= 4)%nat).
Proof.
  intros H. unfold utf8_char.
  destruct (N.ltb_spec c 0x80).
  { right. split; [lia |]. eexists.
    split; [reflexivity | cbn [length]; lia]. }
  destruct (N.ltb_spec c 0x800).
  { right. split; [lia |]. eexists.
    split; [reflexivity | cbn [length]; lia]. }
  destruct (N.leb_spec 0xD800 c); destruct (N.leb_spec c 0xDFFF);
    cbn [andb].
  - left. split; [lia | reflexivity].
  - right. split; [lia |]. destruct (N.ltb_spec c 0x10000);
      eexists; (split; [reflexivity | cbn [length]; lia]).
  - right. split; [lia |]. destruct (N.ltb_spec c 0x10000);
      eexists; (split; [reflexivity | cbn [length]; lia]).
  - right. split; [lia |]. destruct (N.ltb_spec c 0x10000);
      eexists; (split; [reflexivity | cbn [length]; lia]).
Qed.

(** X3: a contrast level below 128 is sent as the one byte of that value;
    a level from 128 to 2047, so also every level from 128 to 255, is sent
    as two parameter bytes, [0xC0 + level / 64] and [0x80 + level mod 64]
    (the UTF-8 form of [chr(level)]), in a frame of four bytes. *)
Theorem set_contrast_parameter_bytes (amount : Z) (t : trace) :
  (0 <= amount < 128 ->
   set_contrast amount t =
     (Returned tt,
      t ++ [Write [xfe; x50; byte_of_N (Z.to_N amount)]; Sleep DELAY])
   /\ Byte.to_N (byte_of_N (Z.to_N amount)) = Z.to_N amount)
  /\ (128 <= amount < 2048 ->
      exists b1 b2,
        set_contrast amount t =
          (Returned tt, t ++ [Write [xfe; x50; b1; b2]; Sleep DELAY])
        /\ Z.of_N (Byte.to_N b1) = 192 + amount / 64
        /\ Z.of_N (Byte.to_N b2) = 128 + amount mod 64).
Proof.
  split.
  - intros H. split; [now apply set_contrast_ascii |].
    apply byte_of_N_small. lia.
  - intros H.
    destruct (utf8_char_two_bytes (Z.to_N amount)) as (b1 & b2 & U & B1 & B2);
      [lia |].
    exists b1, b2. split; [| split].
    + unfold set_contrast, bind, lift.
      rewrite chr_code_point by lia. rewrite str_encode_one, U.
      now rewrite emits_command.
    + rewrite B1, N2Z.inj_add, N2Z.inj_div, Z2N.id by lia. reflexivity.
    + rewrite B2, N2Z.inj_add, N2Z.inj_mod, Z2N.id by lia. reflexivity.
Qed.

(** X4: [set_contrast] checks no range of its own.  It fails only where the
    built-ins do, before anything is written: with OverflowError for a
    level that does not fit a C int (below -2^31 or above 2^31 - 1), with
    ValueError for a level within that range that is no code point
    (negative, or 0x110000 and above), with UnicodeEncodeError for a
    surrogate (0xD800..0xDFFF).  Every other level returns normally after
    one frame FE 50 and one to four parameter bytes. *)
Theorem set_contrast_failure (amount : Z) (t : trace) :
  (amount < -2147483648 \/ 2147483647 < amount ->
   set_contrast amount t = (Raised OverflowError, t))
  /\ (-2147483648 <= amount < 0 \/ 0x110000 <= amount <= 2147483647 ->
      set_contrast amount t = (Raised ValueError, t))
  /\ (0xD800 <= amount <= 0xDFFF ->
      set_contrast amount t = (Raised UnicodeEncodeError, t))
  /\ (0 <= amount < 0x110000 -> ~ (0xD800 <= amount <= 0xDFFF) ->
      exists b,
        set_contrast amount t =
          (Returned tt, t ++ [Write (xfe :: x50 :: b); Sleep DELAY])
        /\ (1 <= length b <= 4)%nat).
Proof.
  split; [| split; [| split]].
  - intros H. unfold set_contrast, bind, lift.
    now rewrite chr_not_c_int.
  - intros H. unfold set_contrast, bind, lift.
    now rewrite chr_not_code_point.
  - intros H. unfold set_contrast, bind, lift.
    rewrite chr_code_point by lia. rewrite str_encode_one.
    destruct (utf8_char_outcome (Z.to_N amount)) as [[_ U] | [N _]];
      [lia | now rewrite U | lia].
  - intros H S. unfold set_contrast, bind, lift.
    rewrite chr_code_point by lia. rewrite str_encode_one.
    destruct (utf8_char_outcome (Z.to_N amount))
      as [[R _] | [_ (b & U & L)]]; [lia | lia |].
    exists b. rewrite U, app_nil_r. split; [| exact L].
    rewrite emits_command. simpl. now rewrite app_nil_r.
Qed.

(** X5: [show_temperature] does not coerce its line: every value from 0 to
    127, so also 0 and 5 and above, is sent as it is in the frame
    FE 57 <line>; a negative line raises before anything is written,
    ValueError down to -2^31 and OverflowError below (where the line no
    longer fits a C int). *)
Theorem show_temperature_not_coerced (line : Z) (t : trace) :
  (0 <= line < 128 ->
   show_temperature line t =
     (Returned tt,
      t ++ [Write [xfe; x57; byte_of_N (Z.to_N line)]; Sleep DELAY])
   /\ Byte.to_N (byte_of_N (Z.to_N line)) = Z.to_N line)
  /\ (-2147483648 <= line < 0 ->
      show_temperature line t = (Raised ValueError, t))
  /\ (line < -2147483648 ->
      show_temperature line t = (Raised OverflowError, t)).
Proof.
  split.
  - intros H. split; [| apply byte_of_N_small; lia].
    unfold show_temperature, bind, lift.
    rewrite chr_code_point by lia. rewrite str_encode_one.
    unfold utf8_char.
    destruct (N.ltb_spec (Z.to_N line) 128); [| lia].
    now rewrite emits_command.
  - split; intros H; unfold show_temperature, bind, lift.
    + rewrite chr_not_code_point by lia. reflexivity.
    + rewrite chr_not_c_int by lia. reflexivity.
Qed.

(** X6: [backlight_toggle_on] switches the backlight on (FE 42 00) only for
    the value [True] itself; for every other value, truthy ones such as 1
    or a non-empty string included, it sends the backlight-off frame
    (FE 46). *)
Theorem backlight_toggle_on_frames (switch : pyval) (t : trace) :
  backlight_toggle_on (PyBool true) t =
    (Returned tt, t ++ [Write [xfe; x42; x00]; Sleep DELAY])
  /\ (switch <> PyBool true ->
      backlight_toggle_on switch t =
        (Returned tt, t ++ [Write [xfe; x46]; Sleep DELAY])).
Proof.
  split.
  - exact (emits_command [[x42]; [x00]] t).
  - intros H. unfold backlight_toggle_on, backlight_off.
    assert (E : is_True switch = false)
      by (destruct switch as [| [|] | i | s]; trivial; now elim H).
    rewrite E. now rewrite emits_command.
Qed.

(** *** Plain text and aligned text *)

Lemma firstn_pad {A} (x : A) (W m : nat) (e : list A) :
  (W - length e <= m)%nat ->
  firstn W (e ++ repeat x m) = firstn W (e ++ repeat x (W - length e)).
Proof.
  intros H.
  replace m with ((W - length e) + (m - (W - length e)))%nat by lia.
  rewrite repeat_app, app_assoc, firstn_app.
  replace (W - length (e ++ repeat x (W - length e)))%nat with O
    by (rewrite length_app, repeat_length; lia).
  now rewrite firstn_0, app_nil_r.
Qed.

Lemma encode_ascii_ignore_app (a b : pystr) :
  encode_ascii_ignore (a ++ b)
  = encode_ascii_ignore a ++ encode_ascii_ignore b.
Proof. unfold encode_ascii_ignore. now rewrite filter_app, map_app. Qed.

Lemma encode_ascii_ignore_spaces (k : nat) :
  encode_ascii_ignore (repeat 32%N k) = repeat x20 k.
Proof.
  induction k as [| k IH]; [reflexivity |]. simpl repeat.
  change (32%N :: repeat 32%N k) with ([32%N] ++ repeat 32%N k).
  now rewrite encode_ascii_ignore_app, IH.
Qed.

Lemma encode_ascii_ignore_ascii (s : pystr) :
  forallb is_ascii s = true -> encode_ascii_ignore s = map byte_of_N s.
Proof.
  intros H. unfold encode_ascii_ignore. f_equal.
  induction s as [| c s IH]; [reflexivity |].
  simpl in *. apply andb_prop in H. destruct H as [Hc Hs].
  now rewrite Hc, IH.
Qed.

Lemma ascii_bytes_back (s : pystr) :
  forallb is_ascii s = true -> map Byte.to_N (map byte_of_N s) = s.
Proof.
  intros H. rewrite map_map. rewrite <- (map_id s) at 2.
  apply map_ext_in. intros c Hc.
  rewrite forallb_forall in H. specialize (H c Hc).
  unfold is_ascii in H. apply N.ltb_lt in H.
  apply byte_of_N_small. lia.
Qed.

Lemma nfkd_sample_ascii (s : pystr) :
  forallb is_ascii s = true -> nfkd_sample s = s.
Proof.
  unfold nfkd_sample. induction s as [| c s IH]; [reflexivity |].
  intros H. simpl in H. apply andb_prop in H. destruct H as [Hc Hs].
  unfold is_ascii in Hc. apply N.ltb_lt in Hc.
  simpl flat_map.
  destruct (N.eqb_spec c 0xE9); [lia |].
  destruct (N.eqb_spec c 0xFB01); [lia |].
  simpl. now rewrite IH.
Qed.

Lemma str_pad_long (s : pystr) :
  SCREEN_WIDTH <= len s ->
  str_center s SCREEN_WIDTH 32%N = s
  /\ str_rjust s SCREEN_WIDTH 32%N = s
  /\ str_ljust s SCREEN_WIDTH 32%N = s.
Proof.
  intros H. unfold str_center, str_rjust, str_ljust.
  destruct (Z.leb_spec SCREEN_WIDTH (len s)); [auto | lia].
Qed.

Section Alignment.

Variable nfkd : pystr -> pystr.
Variable lower : pystr -> pystr.

Lemma toField_ascii_bytes (s : pystr) :
  forallb is_ascii s = true ->
  nfkd s = s ->
  toField nfkd s
  = firstn 20 (map byte_of_N s ++ repeat x20 (20 - length s)).
Proof.
  intros A E. rewrite toField_eq, E, encode_ascii_ignore_ascii by assumption.
  unfold ljust. now rewrite length_map.
Qed.

(** X7: a text of ASCII characters is shown as it is: read back as
    character codes, its field is the text followed by spaces, cut to 20
    (for a text that normalisation leaves unchanged, as it does ASCII). *)
Theorem toField_ascii_text (text : pystr) :
  forallb is_ascii text = true ->
  nfkd text = text ->
  map Byte.to_N (toField nfkd text)
  = firstn 20 (text ++ repeat 32%N (20 - length text)).
Proof.
  intros A E. rewrite toField_ascii_bytes by assumption.
  rewrite <- firstn_map, map_app, map_repeat.
  now rewrite ascii_bytes_back.
Qed.

(** X8: [write_line_aligned] never raises: for every text, line and
    alignment it writes exactly one frame, FE 47 01, the byte of the
    coerced line and a field of 20 bytes. *)
Theorem write_line_aligned_one_frame (text : pystr) (line : option Z)
        (align : pystr) (t : trace) :
  exists field,
    write_line_aligned nfkd lower text line align t =
      (Returned tt,
       t ++ [Write (xfe :: x47 :: x01 :: line_byte (coerce_line line)
                        :: field);
             Sleep DELAY])
    /\ length field = 20%nat
    /\ (1 <= Byte.to_N (line_byte (coerce_line line)) <= 4)%N.
Proof.
  unfold write_line_aligned.
  eexists. split; [apply emits_write_line |].
  split; [apply toField_length |].
  apply line_byte_range, coerce_line_range.
Qed.

(** X9: on a text of SCREEN_WIDTH (20) characters or more the alignment
    has no effect at all: the call does what [write_line] does. *)
Theorem write_line_aligned_long_text (text : pystr) (line : option Z)
        (align : pystr) (t : trace) :
  SCREEN_WIDTH <= len text ->
  write_line_aligned nfkd lower text line align t
  = write_line nfkd text line t.
Proof.
  intros H. unfold write_line_aligned.
  destruct (str_pad_long text H) as (C & R & L).
  rewrite C, R, L.
  destruct (str_eqb (lower align) (str_of "c")); [reflexivity |].
  destruct (str_eqb (lower align) (str_of "r")); reflexivity.
Qed.

(** X10: every alignment other than "c" and "r" (after lower-casing) is
    the left one, and left alignment changes nothing: the call writes the
    frame that [write_line] writes (normalisation leaving spaces appended
    to the text in place). *)
Theorem write_line_aligned_left_is_plain (text : pystr) (line : option Z)
        (align : pystr) (t : trace) :
  lower align <> str_of "c" ->
  lower align <> str_of "r" ->
  (forall k, nfkd (text ++ repeat 32%N k) = nfkd text ++ repeat 32%N k) ->
  write_line_aligned nfkd lower text line align t
  = write_line nfkd text line t.
Proof.
  intros Hc Hr Hn. unfold write_line_aligned, str_eqb.
  destruct (list_eq_dec N.eq_dec (lower align) (str_of "c"));
    [contradiction |].
  destruct (list_eq_dec N.eq_dec (lower align) (str_of "r"));
    [contradiction |].
  assert (F : toField nfkd (str_ljust text SCREEN_WIDTH 32%N)
              = toField nfkd text).
  { unfold str_ljust. destruct (Z.leb_spec SCREEN_WIDTH (len text));
      [reflexivity |].
    rewrite !toField_eq, Hn, encode_ascii_ignore_app,
      encode_ascii_ignore_spaces.
    unfold ljust. rewrite <- app_assoc, <- repeat_app.
    apply firstn_pad. rewrite length_app, repeat_length. lia. }
  rewrite !emits_write_line. unfold line_events. now rewrite F.
Qed.

Lemma forallb_is_ascii_spaces (k : nat) :
  forallb is_ascii (repeat 32%N k) = true.
Proof. induction k as [| k IH]; [reflexivity | exact IH]. Qed.

Lemma toField_ascii_full (s : pystr) :
  forallb is_ascii s = true ->
  nfkd s = s ->
  length s = 20%nat ->
  toField nfkd s = map byte_of_N s.
Proof.
  intros A E L. rewrite toField_ascii_bytes by assumption.
  rewrite L. simpl repeat. rewrite app_nil_r.
  apply firstn_all2. rewrite length_map. lia.
Qed.

Lemma str_center_short (text : pystr) :
  (length text <= 20)%nat ->
  str_center text SCREEN_WIDTH 32%N
  = repeat 32%N ((20 - length text) / 2) ++ text
      ++ repeat 32%N (20 - length text - (20 - length text) / 2).
Proof.
  intros H. unfold str_center, SCREEN_WIDTH, len.
  destruct (Z.leb_spec 20 (Z.of_nat (length text))) as [G | G].
  - replace (length text) with 20%nat by lia. simpl. now rewrite app_nil_r.
  - cbv zeta.
    rewrite <- Z.land_assoc. change (Z.land 20 1) with 0.
    rewrite Z.land_0_r, Z.add_0_r.
    replace (20 - Z.of_nat (length text))
      with (Z.of_nat (20 - length text)) by lia.
    change 2 with (Z.of_nat 2). rewrite <- Nat2Z.inj_div.
    rewrite Nat2Z.id. do 3 f_equal.
    pose proof (Nat.div_mod_eq (20 - length text) 2).
    pose proof (Nat.mod_upper_bound (20 - length text) 2). lia.
Qed.

Lemma str_rjust_short (text : pystr) :
  (length text <= 20)%nat ->
  str_rjust text SCREEN_WIDTH 32%N
  = repeat 32%N (20 - length text) ++ text.
Proof.
  intros H. unfold str_rjust, SCREEN_WIDTH, len.
  destruct (Z.leb_spec 20 (Z.of_nat (length text))) as [G | G].
  - replace (length text) with 20%nat by lia. reflexivity.
  - do 2 f_equal. lia.
Qed.

(** X11: a text of at most 20 ASCII characters is centred with
    [(20 - n) / 2] spaces on its left and the remaining spaces on its
    right, and right-aligned with all [20 - n] spaces on its left; the
    field sent is exactly these 20 characters (normalisation leaving ASCII
    strings unchanged). *)
Theorem write_line_aligned_center_right (text : pystr) (line : option Z)
        (align : pystr) (t : trace) :
  forallb is_ascii text = true ->
  (length text <= 20)%nat ->
  (forall s, forallb is_ascii s = true -> nfkd s = s) ->
  (lower align = str_of "c" ->
   write_line_aligned nfkd lower text line align t =
     (Returned tt,
      t ++ [Write (line_frame (coerce_line line)
                     (map byte_of_N
                        (repeat 32%N ((20 - length text) / 2) ++ text
                           ++ repeat 32%N (20 - length text
                                           - (20 - length text) / 2))));
            Sleep DELAY]))
  /\ (lower align = str_of "r" ->
      write_line_aligned nfkd lower text line align t =
        (Returned tt,
         t ++ [Write (line_frame (coerce_line line)
                        (map byte_of_N
                           (repeat 32%N (20 - length text) ++ text)));
               Sleep DELAY])).
Proof.
  intros A L Hn.
  pose proof (Nat.div_mod_eq (20 - length text) 2) as D.
  pose proof (Nat.mod_upper_bound (20 - length text) 2) as U.
  split; intros E; unfold write_line_aligned; rewrite E.
  - change (str_eqb (str_of "c") (str_of "c")) with true. cbv iota.
    rewrite str_center_short by assumption.
    rewrite emits_write_line. unfold line_events.
    rewrite toField_ascii_full; [reflexivity | | |].
    + now rewrite !forallb_app, !forallb_is_ascii_spaces, A.
    + apply Hn. now rewrite !forallb_app, !forallb_is_ascii_spaces, A.
    + rewrite !length_app, !repeat_length. lia.
  - change (str_eqb (str_of "r") (str_of "c")) with false.
    change (str_eqb (str_of "r") (str_of "r")) with true. cbv iota.
    rewrite str_rjust_short by assumption.
    rewrite emits_write_line. unfold line_events.
    rewrite toField_ascii_full; [reflexivity | | |].
    + now rewrite forallb_app, forallb_is_ascii_spaces, A.
    + apply Hn. now rewrite forallb_app, forallb_is_ascii_spaces, A.
    + rewrite length_app, repeat_length. lia.
Qed.

(** X12: [write_lines] never raises and looks at the first SCREEN_LINES
    (4) entries only: it writes one frame for each of them, to lines 1, 2,
    ... in order, so min(4, len) frames in all, and entries after the
    fourth change nothing. *)
Theorem write_lines_first_four (textlines : list pystr) (t : trace) :
  write_lines nfkd textlines t =
    (Returned tt, t ++ rows_events nfkd 1 (firstn 4 textlines))
  /\ write_lines nfkd textlines t = write_lines nfkd (firstn 4 textlines) t
  /\ length (writes (rows_events nfkd 1 (firstn 4 textlines)))
     = Nat.min 4 (length textlines)
  /\ Forall (fun f => exists l field,
                 f = xfe :: x47 :: x01 :: l :: field
                 /\ (1 <= Byte.to_N l <= 4)%N
                 /\ length field = 20%nat)
            (writes (rows_events nfkd 1 (firstn 4 textlines))).
Proof.
  split; [apply emits_write_lines |].
  split.
  { rewrite !emits_write_lines. unfold lines_events.
    now rewrite firstn_firstn. }
  split; [apply (lines_events_writes nfkd) |].
  apply rows_events_writes; [lia |].
  unfold len. rewrite length_firstn. lia.
Qed.

End Alignment.

(** *** Flashing and scrolling: edge cases, timing, final screen *)

Lemma Qle_bool_neg (d : Q) : (d < 0)%Q -> Qle_bool 0 d = false.
Proof.
  intros H. destruct (Qle_bool 0 d) eqn:E; [| reflexivity].
  apply Qle_bool_iff in E. exfalso. exact (Qlt_not_le _ _ H E).
Qed.

Lemma sleep_negative (d : Q) (t : trace) :
  (d < 0)%Q -> sleep d t = (Raised ValueError, t).
Proof. intros H. unfold sleep. now rewrite Qle_bool_neg. Qed.

Lemma total_sleep_app (a b : trace) :
  (total_sleep (a ++ b) == total_sleep a + total_sleep b)%Q.
Proof.
  induction a as [| [d | s] a IH]; cbn [app total_sleep].
  - ring.
  - exact IH.
  - rewrite IH. ring.
Qed.

Lemma total_sleep_concat_repeat (X : list event) (n : nat) :
  (total_sleep (concat (repeat X n))
   == inject_Z (Z.of_nat n) * total_sleep X)%Q.
Proof.
  induction n as [| n IH].
  - cbn [repeat concat total_sleep]. change (inject_Z (Z.of_nat 0)) with 0%Q.
    ring.
  - cbn [repeat concat]. rewrite total_sleep_app, IH.
    rewrite Nat2Z.inj_succ. unfold Z.succ. rewrite inject_Z_plus. ring.
Qed.

Section Timing.

Variable nfkd : pystr -> pystr.

Lemma total_sleep_rows (texts : list pystr) :
  forall row,
    (total_sleep (rows_events nfkd row texts)
     == inject_Z (len texts) * DELAY)%Q.
Proof.
  induction texts as [| x rest IH]; intros row.
  - cbn [rows_events total_sleep]. change (inject_Z (len [])) with 0%Q. ring.
  - cbn [rows_events line_events app total_sleep]. rewrite IH.
    unfold len. simpl length. rewrite Nat2Z.inj_succ. unfold Z.succ.
    rewrite inject_Z_plus. ring.
Qed.

Lemma emits_write_line_flash (text : pystr) (line : option Z) (count : Z)
      (tick : Q) :
  (0 <= tick)%Q ->
  emits (write_line_flash nfkd text line count tick) tt
        (concat (repeat (line_events nfkd text (coerce_line line)
                           ++ [Sleep tick]
                           ++ line_events nfkd (str_of "") (coerce_line line)
                           ++ [Sleep tick])
                        (Z.to_nat count))
           ++ line_events nfkd text (coerce_line line)).
Proof.
  intros Ht. apply Qle_bool_iff in Ht.
  unfold write_line_flash.
  apply emits_bind with (a := tt); [| apply emits_write_line].
  rewrite <- (iter_events_const _ (Z.to_nat count) 0).
  destruct (Z.le_gt_cases 0 count) as [Hc | Hc].
  - replace (Z.to_nat count) with (Z.to_nat (count - 0)) by (f_equal; lia).
    apply emits_while; [lia |].
    intros j _.
    apply emits_bind with (a := tt); [apply emits_write_line |].
    apply emits_bind with (a := tt); [now apply emits_sleep |].
    apply emits_bind with (a := tt); [apply emits_write_line |].
    now apply emits_sleep.
  - replace (Z.to_nat count) with O by lia. simpl.
    destruct (Z.ltb_spec 0 count); [lia | apply emits_ret].
Qed.

(** X13: with a count of zero or less [write_line_flash] does not flash:
    it does exactly what [write_line] does, whatever the tick (no sleep is
    made, so even a negative tick raises nothing). *)
Theorem write_line_flash_no_round (text : pystr) (line : option Z)
        (count : Z) (tick : Q) (t : trace) :
  count <= 0 ->
  write_line_flash nfkd text line count tick t = write_line nfkd text line t.
Proof.
  intros H. unfold write_line_flash.
  replace (Z.to_nat count) with O by lia. simpl while_lt.
  destruct (Z.ltb_spec 0 count); [lia |].
  unfold bind, ret. reflexivity.
Qed.

(** X14: with a negative tick and a count of at least 1,
    [write_line_flash] raises ValueError at its first sleep: exactly one
    frame has been written by then, the text on its line, and no blank
    frame. *)
Theorem write_line_flash_negative_tick (text : pystr) (line : option Z)
        (count : Z) (tick : Q) (t : trace) :
  1 <= count ->
  (tick < 0)%Q ->
  write_line_flash nfkd text line count tick t =
    (Raised ValueError,
     t ++ [Write (line_frame (coerce_line line) (toField nfkd text));
           Sleep DELAY]).
Proof.
  intros Hc Ht. unfold write_line_flash.
  destruct (Z.to_nat count) as [| k] eqn:E; [lia |].
  cbn [while_lt]. destruct (Z.ltb_spec 0 count); [| lia].
  unfold bind at 1. unfold bind at 1.
  rewrite (bind_emits _ _ _ _ _ (emits_write_line nfkd text line)).
  unfold bind at 1. rewrite sleep_negative by assumption.
  reflexivity.
Qed.

(** X15: with a negative speed and at least SCREEN_LINES + 1 lines,
    [write_lines_scroll] raises ValueError at its first sleep: the first
    four lines have been written by then, and nothing else. *)
Theorem write_lines_scroll_negative_speed (lines : list pystr) (speed : Q)
        (t : trace) :
  SCREEN_LINES + 1 <= len lines ->
  (speed < 0)%Q ->
  write_lines_scroll nfkd lines speed t =
    (Raised ValueError, t ++ rows_events nfkd 1 (firstn 4 lines)).
Proof.
  intros Hn Hs. unfold write_lines_scroll.
  destruct (Z.ltb_spec (len lines) (SCREEN_LINES + 1)); [lia |].
  cbv zeta. unfold SCREEN_LINES in *.
  destruct (Z.to_nat (len lines - (4 - 1))) as [| k] eqn:E; [lia |].
  cbn [while_lt]. destruct (Z.ltb_spec 0 (len lines - (4 - 1))); [| lia].
  unfold bind at 1.
  rewrite (bind_emits _ _ _ _ _ (emits_write_lines nfkd _)).
  rewrite sleep_negative by assumption.
  unfold lines_events. rewrite slice_prefix by lia.
  change (Z.to_nat (0 + 4)) with 4%nat. now rewrite firstn_firstn.
Qed.

(** X16: a flash of [count] >= 0 rounds with a tick >= 0 sleeps for
    [2*count*tick + (2*count + 1)*DELAY] in all: two ticks a round, and the
    DELAY pause after each of the 2*count + 1 frames. *)
Theorem write_line_flash_duration (text : pystr) (line : option Z)
        (count : Z) (tick : Q) (t : trace) :
  0 <= count ->
  (0 <= tick)%Q ->
  exists evs,
    write_line_flash nfkd text line count tick t = (Returned tt, t ++ evs)
    /\ (total_sleep evs
        == inject_Z (2 * count) * tick + inject_Z (2 * count + 1) * DELAY)%Q.
Proof.
  intros Hc Ht. eexists. split; [now apply emits_write_line_flash |].
  rewrite total_sleep_app, total_sleep_concat_repeat.
  rewrite Z2Nat.id by assumption.
  rewrite !total_sleep_app. cbn [line_events total_sleep].
  rewrite inject_Z_plus, !inject_Z_mult. ring.
Qed.

End Timing.

Section Scrolling.

Variable nfkd : pystr -> pystr.

Lemma total_sleep_windows (speed : Q) (ws : list (list pystr)) :
  Forall (fun w => length w = 4%nat) ws ->
  (total_sleep (windows_events nfkd speed ws)
   == inject_Z (len ws) * (speed + 4 * DELAY))%Q.
Proof.
  unfold windows_events.
  induction 1 as [| w ws Hw _ IH].
  - cbn [map concat total_sleep]. change (inject_Z (len [])) with 0%Q. ring.
  - cbn [map concat]. rewrite !total_sleep_app, IH.
    unfold lines_events. rewrite total_sleep_rows.
    unfold len. rewrite length_firstn, Hw.
    change (inject_Z (Z.of_nat (Nat.min 4 4))) with 4%Q.
    cbn [total_sleep length]. rewrite Nat2Z.inj_succ. unfold Z.succ.
    rewrite inject_Z_plus. ring.
Qed.

(** X17: a scroll of n >= SCREEN_LINES + 1 lines with a speed >= 0 sleeps
    for [(n - SCREEN_LINES + 1) * (speed + 4*DELAY)] in all: for each
    window the DELAY pause after each of its four frames, then the speed. *)
Theorem write_lines_scroll_duration (lines : list pystr) (speed : Q)
        (t : trace) :
  SCREEN_LINES + 1 <= len lines ->
  (0 <= speed)%Q ->
  exists evs,
    write_lines_scroll nfkd lines speed t = (Returned tt, t ++ evs)
    /\ (total_sleep evs
        == inject_Z (len lines - SCREEN_LINES + 1) * (speed + 4 * DELAY))%Q.
Proof.
  intros Hn Hs. eexists.
  split; [now apply emits_write_lines_scroll |].
  rewrite total_sleep_windows by apply scroll_windows_full.
  unfold len in *. rewrite scroll_windows_length.
  unfold SCREEN_LINES in *.
  replace (Z.of_nat (length lines - 3)) with (Z.of_nat (length lines) - 4 + 1)
    by lia.
  reflexivity.
Qed.

(** X18: a scroll of at least SCREEN_LINES + 1 lines ends with the last
    four lines of the list on lines 1 to 4: the last events of the call are
    the four frames of these lines and the closing sleep. *)
Theorem write_lines_scroll_last_window (lines : list pystr) (speed : Q)
        (t : trace) :
  SCREEN_LINES + 1 <= len lines ->
  (0 <= speed)%Q ->
  exists pre,
    write_lines_scroll nfkd lines speed t =
      (Returned tt,
       t ++ pre
         ++ rows_events nfkd 1 (skipn (length lines - 4) lines)
         ++ [Sleep speed])
    /\ length (skipn (length lines - 4) lines) = 4%nat.
Proof.
  intros Hn Hs. unfold SCREEN_LINES, len in Hn.
  assert (L : length (skipn (length lines - 4) lines) = 4%nat)
    by (rewrite length_skipn; lia).
  exists (windows_events nfkd speed
            (map (fun off => slice lines (Z.of_nat off) (Z.of_nat off + 4))
                 (seq 0 (length lines - 4)))).
  split; [| exact L].
  rewrite (emits_write_lines_scroll nfkd lines speed)
    by (unfold SCREEN_LINES, len; try lia; assumption).
  do 2 f_equal.
  unfold scroll_windows, windows_events, SCREEN_LINES, len.
  replace (Z.to_nat (Z.of_nat (length lines) - (4 - 1)))
    with (S (length lines - 4)) by lia.
  rewrite seq_S, !map_app, concat_app. f_equal.
  cbn [map concat Nat.add]. rewrite app_nil_r.
  unfold lines_events. rewrite slice_from by lia.
  replace (Z.to_nat (Z.of_nat (length lines - 4) + 4
                     - Z.of_nat (length lines - 4))) with 4%nat by lia.
  rewrite Nat2Z.id, firstn_firstn. cbn [Nat.min].
  rewrite firstn_all2 by lia. reflexivity.
Qed.

(** X19: [write_data_wrapped] writes [ceil(min(len, 79) / 20)] frames, one
    for each line the text reaches and none for the others; on the empty
    text it writes nothing at all. *)
Theorem write_data_wrapped_frame_count (text : pystr) (t : trace) :
  exists evs,
    write_data_wrapped nfkd text t = (Returned tt, t ++ evs)
    /\ length (writes evs) = ((Nat.min 79 (length text) + 19) / 20)%nat
    /\ (text = [] -> evs = []).
Proof.
  pose proof (wrapped_chunks_count text) as C4.
  exists (rows_events nfkd 1 (chunks20 (firstn 79 text))).
  split; [apply emits_write_data_wrapped |].
  split.
  - destruct (rows_events_writes nfkd (chunks20 (firstn 79 text)) 1)
      as [E _]; [lia | unfold len; lia |].
    now rewrite E, chunks20_length, length_firstn.
  - intros ->. reflexivity.
Qed.

End Scrolling.

(** *** The demo and the main program *)

Lemma returns_after_emits {A} (m : io A) a evs n :
  emits m a evs -> length (writes evs) = n -> returns_after m n.
Proof. intros E L t. exists a, evs. now rewrite E. Qed.

Lemma returns_after_then {A} (m : io A) (k : io unit) n1 n2 :
  returns_after m n1 -> returns_after k n2 ->
  returns_after (bind m (fun _ => k)) (n1 + n2).
Proof.
  intros H1 H2 t.
  destruct (H1 t) as (a & e1 & E1 & L1).
  destruct (H2 (t ++ e1)) as (b & e2 & E2 & L2).
  exists b, (e1 ++ e2). unfold bind. rewrite E1, E2, app_assoc.
  split; [reflexivity |]. rewrite writes_app, length_app. lia.
Qed.

Lemma returns_after_sleep (d : Q) :
  Qle_bool 0 d = true -> returns_after (sleep d) 0.
Proof.
  intros H. apply returns_after_emits with (1 := emits_sleep d H).
  reflexivity.
Qed.

Section MainProgram.

Variable nfkd : pystr -> pystr.
Variable lower : pystr -> pystr.

Lemma emits_clear_screen :
  emits (clear_screen nfkd) tt
        (rows_events nfkd 1 (repeat (str_of " ") 4)).
Proof.
  unfold clear_screen.
  change (range3 1 (SCREEN_LINES + 1) 1) with [1; 2; 3; 4].
  simpl for_each. cbn [repeat rows_events].
  repeat (apply emits_bind with (a := tt);
          [apply emits_write_line_valid; lia |]).
  apply emits_ret.
Qed.

Lemma returns_after_write_line (text : pystr) (line : option Z) :
  returns_after (write_line nfkd text line) 1.
Proof.
  apply returns_after_emits with (1 := emits_write_line nfkd text line).
  reflexivity.
Qed.

Lemma returns_after_clear_screen : returns_after (clear_screen nfkd) 4.
Proof.
  apply returns_after_emits with (1 := emits_clear_screen). reflexivity.
Qed.

Lemma returns_after_command (cmd : list bytes) :
  returns_after (command cmd) 1.
Proof.
  apply returns_after_emits with (1 := emits_command cmd). reflexivity.
Qed.

Lemma emits_show_temperature (line : Z) :
  0 <= line < 128 ->
  emits (show_temperature line) tt
        [Write [xfe; x57; byte_of_N (Z.to_N line)]; Sleep DELAY].
Proof.
  intros H t. unfold show_temperature, bind, lift.
  rewrite chr_code_point by lia. rewrite str_encode_one.
  unfold utf8_char.
  destruct (N.ltb_spec (Z.to_N line) 128); [| lia].
  now rewrite emits_command.
Qed.

(** X20: [demo] runs to its end without an exception, whatever the
    character database does to its texts, and writes 57 frames on the
    way. *)
Theorem demo_runs (t : trace) :
  exists evs,
    demo nfkd lower t = (Returned tt, t ++ evs)
    /\ length (writes evs) = 57%nat.
Proof.
  assert (R : returns_after (demo nfkd lower) 57).
  { unfold demo.
    change 57%nat
      with (4 + (1 + (1 + (1 + (1 + (7 + (0 + (4 + (0 + (4 + (0 + (4
            + (20 + (0 + (4 + (1 + (0 + (4 + (0 + 1)))))))))))))))))))%nat.
    apply returns_after_then; [exact returns_after_clear_screen |].
    apply returns_after_then; [exact (returns_after_command _) |].
    apply returns_after_then; [exact (returns_after_write_line _ _) |].
    apply returns_after_then; [exact (returns_after_write_line _ _) |].
    apply returns_after_then; [exact (returns_after_write_line _ _) |].
    apply returns_after_then.
    { eapply returns_after_emits.
      - apply emits_write_line_flash. unfold Qle. simpl. lia.
      - reflexivity. }
    apply returns_after_then; [now apply returns_after_sleep |].
    apply returns_after_then.
    { eapply returns_after_emits; [apply emits_write_data_wrapped |].
      match goal with
      | |- length (writes (rows_events _ _ ?c)) = _ =>
          destruct (rows_events_writes nfkd c 1) as [E _];
            [lia | vm_compute; discriminate | rewrite E; reflexivity]
      end. }
    apply returns_after_then; [now apply returns_after_sleep |].
    apply returns_after_then.
    { eapply returns_after_emits; [apply emits_write_lines |].
      now rewrite lines_events_writes. }
    apply returns_after_then; [now apply returns_after_sleep |].
    apply returns_after_then; [exact returns_after_clear_screen |].
    apply returns_after_then.
    { eapply returns_after_emits.
      - apply emits_write_lines_scroll;
          [vm_compute; discriminate | unfold Qle; simpl; lia].
      - rewrite windows_events_writes by apply scroll_windows_full.
        now rewrite scroll_windows_length. }
    apply returns_after_then; [now apply returns_after_sleep |].
    apply returns_after_then; [exact returns_after_clear_screen |].
    apply returns_after_then.
    { eapply returns_after_emits;
        [apply emits_show_temperature; lia | reflexivity]. }
    apply returns_after_then; [now apply returns_after_sleep |].
    apply returns_after_then; [exact returns_after_clear_screen |].
    apply returns_after_then; [now apply returns_after_sleep |].
    exact (returns_after_command _). }
  destruct (R t) as ([] & evs & E & L).
  exists evs. split; [exact E | exact L].
Qed.

Lemma emits_init : emits init tt [Write [xfe; x56; x00]].
Proof. intros t. reflexivity. Qed.

Lemma emits_main_clear (x : bool) :
  exists e,
    emits (if x then clear_screen nfkd else ret tt) tt e.
Proof.
  destruct x; eexists; [apply emits_clear_screen | apply emits_ret].
Qed.

Lemma emits_main_backlight (b : option pystr) :
  exists e,
    emits (match b with
           | Some b =>
               if str_eqb b (str_of "on") then backlight_on
               else if str_eqb b (str_of "off") then backlight_off
               else ret tt
           | None => ret tt
           end) tt e.
Proof.
  destruct b as [b |]; [| eexists; apply emits_ret].
  destruct (str_eqb b (str_of "on")); [eexists; apply emits_command |].
  destruct (str_eqb b (str_of "off"));
    eexists; [apply emits_command | apply emits_ret].
Qed.

(** A contrast of 0 on the command line is ignored, exactly as if no
    contrast had been given (no contrast frame is sent), and an empty
    message is ignored like a missing one. *)
Lemma main_ignores_zero_and_empty (b : option pystr) (c : option Z)
        (l : option Z) (d x : bool) (m : option pystr) (t : trace) :
  main nfkd lower
       {| args_backlight := b; args_contrast := Some 0; args_line := l;
          args_demo := d; args_clear := x; args_message := m |} t
  = main nfkd lower
         {| args_backlight := b; args_contrast := None; args_line := l;
            args_demo := d; args_clear := x; args_message := m |} t
  /\ main nfkd lower
          {| args_backlight := b; args_contrast := c; args_line := l;
             args_demo := d; args_clear := x; args_message := Some [] |} t
     = main nfkd lower
            {| args_backlight := b; args_contrast := c; args_line := l;
               args_demo := d; args_clear := x; args_message := None |} t.
Proof. split; reflexivity. Qed.

(** X21: a contrast that is no code point (negative, or 0x110000 and
    above) ends the program with an exception after the init frame, the
    clearing and the backlight command have been sent, exactly as a run
    with these two options alone sends them; the demo and the message are
    never reached.  The exception is ValueError for a contrast that fits a
    C int, OverflowError for one below -2^31 or above 2^31 - 1. *)
Theorem main_bad_contrast (b : option pystr) (c : Z) (l : option Z)
        (d x : bool) (m : option pystr) (t : trace) :
  c < 0 \/ 0x110000 <= c ->
  exists evs,
    main nfkd lower
         {| args_backlight := b; args_contrast := Some c; args_line := l;
            args_demo := d; args_clear := x; args_message := m |} t
    = (Raised (if (c <? -2147483648) || (2147483647 <? c)
               then OverflowError else ValueError),
       t ++ evs)
    /\ main nfkd lower
            {| args_backlight := b; args_contrast := None;
               args_line := None; args_demo := false; args_clear := x;
               args_message := None |} t
       = (Returned tt, t ++ evs).
Proof.
  intros H.
  destruct (emits_main_clear x) as [e1 E1].
  destruct (emits_main_backlight b) as [e2 E2].
  exists ([Write [xfe; x56; x00]] ++ e1 ++ e2).
  unfold main. cbn [args_backlight args_contrast args_line args_demo
                    args_clear args_message].
  rewrite !(bind_emits _ _ _ _ _ emits_init).
  rewrite !(bind_emits _ _ _ _ _ E1).
  rewrite !(bind_emits _ _ _ _ _ E2).
  destruct (Z.eqb_spec c 0); [lia |].
  unfold bind at 1.
  destruct (Z.ltb_spec c (-2147483648)); destruct (Z.ltb_spec 2147483647 c);
    cbn [orb];
    try (rewrite set_contrast_not_a_c_int by lia);
    try (rewrite set_contrast_not_a_code_point by lia);
    unfold bind, ret; rewrite <- !app_assoc; split; reflexivity.
Qed.

(** X22: a message alone on the command line is wrapped over the lines it
    needs when no line is given; with a line it is written as one field of
    20 bytes to that line, to line 1 when the line is outside 1..4. *)
Theorem main_message (c : N) (m : pystr) (l : Z) (t : trace) :
  main nfkd lower
       {| args_backlight := None; args_contrast := None; args_line := None;
          args_demo := false; args_clear := false;
          args_message := Some (c :: m) |} t
  = (Returned tt,
     t ++ Write [xfe; x56; x00]
       :: rows_events nfkd 1 (chunks20 (firstn 79 (c :: m))))
  /\ main nfkd lower
          {| args_backlight := None; args_contrast := None;
             args_line := Some l; args_demo := false; args_clear := false;
             args_message := Some (c :: m) |} t
     = (Returned tt,
        t ++ [Write [xfe; x56; x00];
              Write (line_frame (coerce_line (Some l))
                                (toField nfkd (c :: m)));
              Sleep DELAY]).
Proof.
  split; unfold main;
    cbn [args_backlight args_contrast args_line args_demo args_clear
         args_message];
    rewrite (bind_emits _ _ _ _ _ emits_init);
    unfold bind at 1; unfold ret at 1;
    unfold bind at 1; unfold ret at 1;
    unfold bind at 1; unfold ret at 1;
    unfold bind at 1; unfold ret at 1.
  - rewrite emits_write_data_wrapped, <- app_assoc. reflexivity.
  - rewrite emits_write_line, <- app_assoc. reflexivity.
Qed.

End MainProgram.

(** *** What follows the init frame *)

Lemma starts_with_frame_app (a b : trace) :
  starts_with_frame a -> starts_with_frame b -> starts_with_frame (a ++ b).
Proof.
  intros [-> | (f & r & ->)] Hb; [exact Hb |].
  right. now exists f, (r ++ b).
Qed.

Lemma appends_led_emits {A} (m : io A) a evs :
  emits m a evs -> framed evs -> starts_with_frame evs -> appends_led m.
Proof. intros E F S t. exists evs. rewrite E. now split. Qed.

Lemma appends_led_ret {A} (a : A) : appends_led (ret a).
Proof.
  apply appends_led_emits with (1 := emits_ret a); [constructor | now left].
Qed.

Lemma appends_led_lift {A} (o : outcome A) : appends_led (lift o).
Proof.
  intros t. exists []. simpl. rewrite app_nil_r.
  split; [reflexivity | split; [constructor | now left]].
Qed.

Lemma appends_led_command (cmd : list bytes) : appends_led (command cmd).
Proof.
  apply appends_led_emits with (1 := emits_command cmd).
  - repeat constructor.
  - right. now eexists _, _.
Qed.

Lemma appends_led_bind {A B} (m : io A) (k : A -> io B) :
  appends_led m -> (forall a, appends_led (k a)) -> appends_led (bind m k).
Proof.
  intros Hm Hk t. destruct (Hm t) as (e1 & E1 & F1 & S1).
  unfold bind. destruct (m t) as [[a | e |] t']; simpl in E1; subst t'.
  - destruct (Hk a (t ++ e1)) as (e2 & E2 & F2 & S2).
    exists (e1 ++ e2). rewrite E2, app_assoc.
    split; [reflexivity |].
    split; [now apply framed_app | now apply starts_with_frame_app].
  - now exists e1.
  - now exists e1.
Qed.

Lemma appends_led_then {A} (m : io A) (k : io unit) :
  appends_led m -> appends_led k -> appends_led (bind m (fun _ => k)).
Proof.
  intros Hm Hk. apply appends_led_bind; [exact Hm | intros _; exact Hk].
Qed.

Lemma appends_led_first {A B} (m : io A) (k : A -> io B) a f r :
  emits m a (Write f :: r) -> framed (Write f :: r) ->
  (forall x, appends_framed (k x)) ->
  appends_led (bind m k).
Proof.
  intros E F Hk t. rewrite (bind_emits _ _ _ _ _ E).
  destruct (Hk a (t ++ Write f :: r)) as (e2 & E2 & F2).
  exists ((Write f :: r) ++ e2). rewrite E2, app_assoc.
  split; [reflexivity |].
  split; [now apply framed_app | right; now eexists _, _].
Qed.

Lemma framed_rows_events (nfkd : pystr -> pystr) (texts : list pystr) :
  forall row,
    framed (rows_events nfkd row texts)
    /\ starts_with_frame (rows_events nfkd row texts).
Proof.
  induction texts as [| x rest IH]; intros row.
  - split; [constructor | now left].
  - cbn [rows_events line_events app]. split.
    + constructor. apply IH.
    + right. now eexists _, _.
Qed.

Section MainOutput.

Variable nfkd : pystr -> pystr.
Variable lower : pystr -> pystr.

Lemma appends_led_set_contrast (amount : Z) :
  appends_led (set_contrast amount).
Proof.
  apply appends_led_bind; [apply appends_led_lift | intros c].
  apply appends_led_bind; [apply appends_led_lift | intros b].
  apply appends_led_command.
Qed.

Lemma appends_led_clear_screen : appends_led (clear_screen nfkd).
Proof.
  apply appends_led_emits with (1 := emits_clear_screen nfkd);
    apply framed_rows_events.
Qed.

Lemma appends_led_write_line (text : pystr) (line : option Z) :
  appends_led (write_line nfkd text line).
Proof.
  apply appends_led_emits with (1 := emits_write_line nfkd text line).
  - repeat constructor.
  - right. now eexists _, _.
Qed.

Lemma appends_led_write_data_wrapped (text : pystr) :
  appends_led (write_data_wrapped nfkd text).
Proof.
  apply appends_led_emits with (1 := emits_write_data_wrapped nfkd text);
    apply framed_rows_events.
Qed.

Lemma appends_led_demo : appends_led (demo nfkd lower).
Proof.
  unfold demo.
  apply appends_led_first
    with (a := tt)
         (f := line_frame 1 (toField nfkd (str_of " ")))
         (r := Sleep DELAY
                 :: rows_events nfkd 2 (repeat (str_of " ") 3)).
  { exact (emits_clear_screen nfkd). }
  { exact (proj1 (framed_rows_events nfkd (repeat (str_of " ") 4) 1)). }
  intros _.
  apply appends_framed_then; [exact (appends_framed_backlight_toggle_on _) |].
  apply appends_framed_then; [exact (appends_framed_write_line nfkd _ _) |].
  apply appends_framed_then;
    [exact (appends_framed_write_line_aligned nfkd lower _ _ _) |].
  apply appends_framed_then;
    [exact (appends_framed_write_line_aligned nfkd lower _ _ _) |].
  apply appends_framed_then;
    [exact (appends_framed_write_line_flash nfkd _ _ _ _) |].
  apply appends_framed_then; [exact (appends_framed_sleep _) |].
  apply appends_framed_then;
    [exact (appends_framed_write_data_wrapped nfkd _) |].
  apply appends_framed_then; [exact (appends_framed_sleep _) |].
  apply appends_framed_then; [exact (appends_framed_write_lines nfkd _) |].
  apply appends_framed_then; [exact (appends_framed_sleep _) |].
  apply appends_framed_then; [exact (appends_framed_clear_screen nfkd) |].
  apply appends_framed_then;
    [exact (appends_framed_write_lines_scroll nfkd _ _) |].
  apply appends_framed_then; [exact (appends_framed_sleep _) |].
  apply appends_framed_then; [exact (appends_framed_clear_screen nfkd) |].
  apply appends_framed_then; [exact (appends_framed_show_temperature _) |].
  apply appends_framed_then; [exact (appends_framed_sleep _) |].
  apply appends_framed_then; [exact (appends_framed_clear_screen nfkd) |].
  apply appends_framed_then; [exact (appends_framed_sleep _) |].
  exact (appends_framed_backlight_toggle_on _).
Qed.

Lemma appends_led_main_rest (ARGS : Args) :
  appends_led
    ((if args_clear ARGS then clear_screen nfkd else ret tt) ;;
     (match args_backlight ARGS with
      | Some b =>
          if str_eqb b (str_of "on") then backlight_on
          else if str_eqb b (str_of "off") then backlight_off
          else ret tt
      | None => ret tt
      end) ;;
     (match args_contrast ARGS with
      | Some c => if c =? 0 then ret tt else set_contrast c
      | None => ret tt
      end) ;;
     (if args_demo ARGS then demo nfkd lower else ret tt) ;;
     match args_message ARGS with
     | Some m =>
         match m with
         | [] => ret tt
         | _ =>
             match args_line ARGS with
             | None => write_data_wrapped nfkd m
             | Some l => write_line nfkd m (Some l)
             end
         end
     | None => ret tt
     end).
Proof.
  apply appends_led_then.
  { destruct (args_clear ARGS);
      [exact appends_led_clear_screen | apply appends_led_ret]. }
  apply appends_led_then.
  { destruct (args_backlight ARGS) as [b |]; [| apply appends_led_ret].
    destruct (str_eqb b (str_of "on")); [apply appends_led_command |].
    destruct (str_eqb b (str_of "off"));
      [apply appends_led_command | apply appends_led_ret]. }
  apply appends_led_then.
  { destruct (args_contrast ARGS) as [c |]; [| apply appends_led_ret].
    destruct (c =? 0);
      [apply appends_led_ret | exact (appends_led_set_contrast c)]. }
  apply appends_led_then.
  { destruct (args_demo ARGS);
      [exact appends_led_demo | apply appends_led_ret]. }
  destruct (args_message ARGS) as [[| c m] |]; try apply appends_led_ret.
  destruct (args_line ARGS) as [l |].
  - exact (appends_led_write_line _ _).
  - exact (appends_led_write_data_wrapped _).
Qed.

(** X2: whatever the command line, the first thing the program sends is the
    init frame FE 56 00, and no pause follows it: after it comes nothing,
    or at once the next frame.  Everything after the init frame is framed
    output (each frame led by FE and followed by the DELAY pause), also
    when the program ends in an exception. *)
Theorem main_output_framed (ARGS : Args) (t : trace) :
  exists evs,
    snd (main nfkd lower ARGS t) = t ++ Write [xfe; x56; x00] :: evs
    /\ framed evs
    /\ (evs = []
        \/ exists f rest, evs = Write (xfe :: f) :: Sleep DELAY :: rest).
Proof.
  unfold main.
  rewrite (bind_emits _ _ _ _ _ emits_init).
  destruct (appends_led_main_rest ARGS (t ++ [Write [xfe; x56; x00]]))
    as (evs & E & F & S).
  exists evs. rewrite E, <- app_assoc.
  split; [reflexivity |]. split; [exact F |].
  destruct S as [-> | (f & r & ->)]; [now left |].
  right. inversion F; subst. now eexists _, _.
Qed.

End MainOutput.

(** *** The further properties at concrete inputs *)

Lemma nfkd_sample_app (a b : pystr) :
  nfkd_sample (a ++ b) = nfkd_sample a ++ nfkd_sample b.
Proof. unfold nfkd_sample. apply flat_map_app. Qed.

Lemma nfkd_sample_spaces (k : nat) :
  nfkd_sample (repeat 32%N k) = repeat 32%N k.
Proof. apply nfkd_sample_ascii, forallb_is_ascii_spaces. Qed.

(** Level 100 is sent as one byte, level 200 as the two bytes C3 88. *)
Lemma set_contrast_parameter_bytes_witness :
  0 <= 100 < 128
  /\ 128 <= 200 < 2048
  /\ set_contrast 100 [] =
       (Returned tt, [Write [xfe; x50; byte_of_N 100]; Sleep DELAY])
  /\ exists b1 b2,
       set_contrast 200 [] =
         (Returned tt, [] ++ [Write [xfe; x50; b1; b2]; Sleep DELAY])
       /\ Z.of_N (Byte.to_N b1) = 192 + 200 / 64
       /\ Z.of_N (Byte.to_N b2) = 128 + 200 mod 64.
Proof.
  assert (H1 : 0 <= 100 < 128) by lia.
  assert (H2 : 128 <= 200 < 2048) by lia.
  split; [exact H1 | split; [exact H2 |]].
  destruct (set_contrast_parameter_bytes 100 []) as [P _].
  destruct (set_contrast_parameter_bytes 200 []) as [_ Q].
  split; [exact (proj1 (P H1)) | exact (Q H2)].
Defined.

(** Level 2^31 raises OverflowError, level -1 ValueError, the surrogate
    0xD800 UnicodeEncodeError. *)
Lemma set_contrast_failure_witness :
  (2147483648 < -2147483648 \/ 2147483647 < 2147483648)
  /\ (-2147483648 <= -1 < 0 \/ 0x110000 <= -1 <= 2147483647)
  /\ 0xD800 <= 0xD800 <= 0xDFFF
  /\ set_contrast 2147483648 [] = (Raised OverflowError, [])
  /\ set_contrast (-1) [] = (Raised ValueError, [])
  /\ set_contrast 0xD800 [] = (Raised UnicodeEncodeError, []).
Proof.
  assert (H0 : 2147483648 < -2147483648 \/ 2147483647 < 2147483648)
    by (right; lia).
  assert (H1 : -2147483648 <= -1 < 0 \/ 0x110000 <= -1 <= 2147483647)
    by (left; lia).
  assert (H2 : 0xD800 <= 0xD800 <= 0xDFFF) by lia.
  split; [exact H0 | split; [exact H1 | split; [exact H2 |]]].
  destruct (set_contrast_failure 2147483648 []) as (O & _).
  destruct (set_contrast_failure (-1) []) as (_ & P & _).
  destruct (set_contrast_failure 0xD800 []) as (_ & _ & Q & _).
  split; [exact (O H0) | split; [exact (P H1) | exact (Q H2)]].
Defined.

(** Line 5 is sent as line 5; line -1 raises ValueError, line -2^31 - 1
    OverflowError. *)
Lemma show_temperature_not_coerced_witness :
  0 <= 5 < 128
  /\ -2147483648 <= -1 < 0
  /\ -2147483649 < -2147483648
  /\ show_temperature 5 [] =
       (Returned tt, [Write [xfe; x57; x05]; Sleep DELAY])
  /\ show_temperature (-1) [] = (Raised ValueError, [])
  /\ show_temperature (-2147483649) [] = (Raised OverflowError, []).
Proof.
  assert (H1 : 0 <= 5 < 128) by lia.
  assert (H2 : -2147483648 <= -1 < 0) by lia.
  assert (H3 : -2147483649 < -2147483648) by lia.
  split; [exact H1 | split; [exact H2 | split; [exact H3 |]]].
  destruct (show_temperature_not_coerced 5 []) as [P _].
  destruct (show_temperature_not_coerced (-1) []) as (_ & Q & _).
  destruct (show_temperature_not_coerced (-2147483649) []) as (_ & _ & R).
  split; [exact (proj1 (P H1)) | split; [exact (Q H2) | exact (R H3)]].
Defined.

(** The integer 1 switches the backlight off. *)
Lemma backlight_toggle_on_frames_witness :
  PyInt 1 <> PyBool true
  /\ backlight_toggle_on (PyInt 1) [] =
       (Returned tt, [Write [xfe; x46]; Sleep DELAY]).
Proof.
  assert (H : PyInt 1 <> PyBool true) by discriminate.
  split; [exact H |].
  exact (proj2 (backlight_toggle_on_frames (PyInt 1) []) H).
Defined.

(** HelloWorld is shown as HelloWorld and ten spaces. *)
Lemma toField_ascii_text_witness :
  forallb is_ascii (str_of "HelloWorld") = true
  /\ nfkd_sample (str_of "HelloWorld") = str_of "HelloWorld"
  /\ map Byte.to_N (toField nfkd_sample (str_of "HelloWorld"))
     = str_of "HelloWorld" ++ repeat 32%N 10.
Proof.
  assert (H1 : forallb is_ascii (str_of "HelloWorld") = true)
    by reflexivity.
  assert (H2 : nfkd_sample (str_of "HelloWorld") = str_of "HelloWorld")
    by reflexivity.
  split; [exact H1 | split; [exact H2 |]].
  exact (toField_ascii_text nfkd_sample (str_of "HelloWorld") H1 H2).
Defined.

(** A text of 22 characters is written the same whatever the alignment. *)
Lemma write_line_aligned_long_text_witness :
  SCREEN_WIDTH <= len (str_of "1 As a scrolling list!")
  /\ write_line_aligned nfkd_sample lower_sample
       (str_of "1 As a scrolling list!") (Some 2) (str_of "R") []
     = write_line nfkd_sample (str_of "1 As a scrolling list!") (Some 2) [].
Proof.
  assert (H : SCREEN_WIDTH <= len (str_of "1 As a scrolling list!"))
    by (vm_compute; discriminate).
  split; [exact H |].
  exact (write_line_aligned_long_text nfkd_sample lower_sample
           (str_of "1 As a scrolling list!") (Some 2) (str_of "R") [] H).
Defined.

(** Alignment "L" is the plain write. *)
Lemma write_line_aligned_left_is_plain_witness :
  lower_sample (str_of "L") <> str_of "c"
  /\ lower_sample (str_of "L") <> str_of "r"
  /\ write_line_aligned nfkd_sample lower_sample (str_of "Left") (Some 1)
       (str_of "L") []
     = write_line nfkd_sample (str_of "Left") (Some 1) [].
Proof.
  assert (H1 : lower_sample (str_of "L") <> str_of "c") by discriminate.
  assert (H2 : lower_sample (str_of "L") <> str_of "r") by discriminate.
  split; [exact H1 | split; [exact H2 |]].
  apply (write_line_aligned_left_is_plain nfkd_sample lower_sample
           (str_of "Left") (Some 1) (str_of "L") [] H1 H2).
  intros k. now rewrite nfkd_sample_app, nfkd_sample_spaces.
Defined.

(** Hi is centred as 9 spaces, Hi, 9 spaces. *)
Lemma write_line_aligned_center_right_witness :
  forallb is_ascii (str_of "Hi") = true
  /\ (length (str_of "Hi") <= 20)%nat
  /\ lower_sample (str_of "C") = str_of "c"
  /\ write_line_aligned nfkd_sample lower_sample (str_of "Hi") (Some 3)
       (str_of "C") []
     = (Returned tt,
        [Write (line_frame 3
                  (map byte_of_N
                     (repeat 32%N 9 ++ str_of "Hi" ++ repeat 32%N 9)));
         Sleep DELAY]).
Proof.
  assert (H1 : forallb is_ascii (str_of "Hi") = true) by reflexivity.
  assert (H2 : (length (str_of "Hi") <= 20)%nat) by (simpl; lia).
  assert (H3 : lower_sample (str_of "C") = str_of "c") by reflexivity.
  split; [exact H1 | split; [exact H2 | split; [exact H3 |]]].
  exact (proj1 (write_line_aligned_center_right nfkd_sample lower_sample
                  (str_of "Hi") (Some 3) (str_of "C") [] H1 H2
                  nfkd_sample_ascii) H3).
Defined.

(** A flash of zero rounds with a negative tick is the plain write. *)
Lemma write_line_flash_no_round_witness :
  0 <= 0
  /\ write_line_flash nfkd_sample (str_of "Flash") (Some 4) 0 (-1) []
     = write_line nfkd_sample (str_of "Flash") (Some 4) [].
Proof.
  assert (H : 0 <= 0) by lia.
  split; [exact H |].
  exact (write_line_flash_no_round nfkd_sample (str_of "Flash") (Some 4) 0
           (-1) [] H).
Defined.

(** Three rounds with a tick of -1: one frame, then ValueError. *)
Lemma write_line_flash_negative_tick_witness :
  1 <= 3
  /\ (-1 < 0)%Q
  /\ write_line_flash nfkd_sample (str_of "Flash") (Some 4) 3 (-1) []
     = (Raised ValueError,
        [Write (line_frame 4 (toField nfkd_sample (str_of "Flash")));
         Sleep DELAY]).
Proof.
  assert (H1 : 1 <= 3) by lia.
  assert (H2 : (-1 < 0)%Q) by reflexivity.
  split; [exact H1 | split; [exact H2 |]].
  exact (write_line_flash_negative_tick nfkd_sample (str_of "Flash")
           (Some 4) 3 (-1) [] H1 H2).
Defined.

(** The five lines a..e with a speed of -1: the first window, then
    ValueError. *)
Lemma write_lines_scroll_negative_speed_witness :
  SCREEN_LINES + 1 <= len five_lines
  /\ (-1 < 0)%Q
  /\ write_lines_scroll nfkd_sample five_lines (-1) []
     = (Raised ValueError,
        [] ++ rows_events nfkd_sample 1 (firstn 4 five_lines)).
Proof.
  assert (H1 : SCREEN_LINES + 1 <= len five_lines)
    by (vm_compute; discriminate).
  assert (H2 : (-1 < 0)%Q) by reflexivity.
  split; [exact H1 | split; [exact H2 |]].
  exact (write_lines_scroll_negative_speed nfkd_sample five_lines (-1) []
           H1 H2).
Defined.

(** The default flash, 3 rounds of 0.6 s, sleeps 6 * 0.6 + 7 * DELAY. *)
Lemma write_line_flash_duration_witness :
  0 <= 3
  /\ (0 <= 6 # 10)%Q
  /\ exists evs,
       write_line_flash nfkd_sample (str_of "Flash") (Some 4) 3 (6 # 10) []
       = (Returned tt, [] ++ evs)
       /\ (total_sleep evs
           == inject_Z (2 * 3) * (6 # 10) + inject_Z (2 * 3 + 1) * DELAY)%Q.
Proof.
  assert (H1 : 0 <= 3) by lia.
  assert (H2 : (0 <= 6 # 10)%Q) by (unfold Qle; simpl; lia).
  split; [exact H1 | split; [exact H2 |]].
  exact (write_line_flash_duration nfkd_sample (str_of "Flash") (Some 4) 3
           (6 # 10) [] H1 H2).
Defined.

(** The five lines a..e at the default speed sleep 2 * (0.5 + 4 * DELAY). *)
Lemma write_lines_scroll_duration_witness :
  SCREEN_LINES + 1 <= len five_lines
  /\ (0 <= 5 # 10)%Q
  /\ exists evs,
       write_lines_scroll nfkd_sample five_lines (5 # 10) []
       = (Returned tt, [] ++ evs)
       /\ (total_sleep evs
           == inject_Z (len five_lines - SCREEN_LINES + 1)
              * ((5 # 10) + 4 * DELAY))%Q.
Proof.
  assert (H1 : SCREEN_LINES + 1 <= len five_lines)
    by (vm_compute; discriminate).
  assert (H2 : (0 <= 5 # 10)%Q) by (unfold Qle; simpl; lia).
  split; [exact H1 | split; [exact H2 |]].
  exact (write_lines_scroll_duration nfkd_sample five_lines (5 # 10) []
           H1 H2).
Defined.

(** The five lines a..e end with b, c, d, e on the screen. *)
Lemma write_lines_scroll_last_window_witness :
  SCREEN_LINES + 1 <= len five_lines
  /\ (0 <= 0)%Q
  /\ exists pre,
       write_lines_scroll nfkd_sample five_lines 0 []
       = (Returned tt,
          [] ++ pre
             ++ rows_events nfkd_sample 1
                  (map str_of ["b"; "c"; "d"; "e"]%string)
             ++ [Sleep 0]).
Proof.
  assert (H1 : SCREEN_LINES + 1 <= len five_lines)
    by (vm_compute; discriminate).
  assert (H2 : (0 <= 0)%Q) by (unfold Qle; simpl; lia).
  split; [exact H1 | split; [exact H2 |]].
  destruct (write_lines_scroll_last_window nfkd_sample five_lines 0 []
              H1 H2) as (pre & R & _).
  exists pre. exact R.
Defined.

(** The empty text is wrapped into nothing. *)
Lemma write_data_wrapped_frame_count_witness :
  write_data_wrapped nfkd_sample [] [] = (Returned tt, []).
Proof.
  destruct (write_data_wrapped_frame_count nfkd_sample [] [])
    as (evs & R & _ & E).
  rewrite (E eq_refl) in R. exact R.
Defined.

(** [-x -c -5 message]: the screen is cleared, then ValueError; with
    [-c 2147483648] the exception is OverflowError. *)
Lemma main_bad_contrast_witness :
  (-5 < 0 \/ 0x110000 <= -5)
  /\ (2147483648 < 0 \/ 0x110000 <= 2147483648)
  /\ (exists evs,
        main nfkd_sample lower_sample
             {| args_backlight := None; args_contrast := Some 2147483648;
                args_line := None; args_demo := false; args_clear := true;
                args_message := Some (str_of "Left") |} []
        = (Raised OverflowError, [] ++ evs))
  /\ exists evs,
       main nfkd_sample lower_sample
            {| args_backlight := None; args_contrast := Some (-5);
               args_line := None; args_demo := false; args_clear := true;
               args_message := Some (str_of "Left") |} []
       = (Raised ValueError, [] ++ evs)
       /\ length (writes evs) = 5%nat.
Proof.
  assert (H : -5 < 0 \/ 0x110000 <= -5) by (left; lia).
  assert (H' : 2147483648 < 0 \/ 0x110000 <= 2147483648) by (right; lia).
  split; [exact H | split; [exact H' |]].
  split.
  { destruct (main_bad_contrast nfkd_sample lower_sample None 2147483648
                None false true (Some (str_of "Left")) [] H')
      as (evs & R & _).
    exists evs. exact R. }
  destruct (main_bad_contrast nfkd_sample lower_sample None (-5) None false
              true (Some (str_of "Left")) [] H) as (evs & R & S).
  exists evs. split; [exact R |].
  apply (f_equal snd) in S. cbn [snd app] in S. rewrite <- S.
  reflexivity.
Defined.
